(** * evilArc3: archive member naming and format dispatch

    A shallow embedding of [evilArc3.py].  The program builds a zip or tar
    archive from a list of input files; the entry of one designated target
    file is stored under a caller-supplied traversal path, every other entry
    under its base name.

    Layout of the development:
    - [Py]        the [str] methods the program calls;
    - [posixpath] the [os.path] functions the program calls (POSIX flavour,
                  the current directory is an explicit argument);
    - [Sys]       the world the program runs in: a disk of regular files
                  with the year of their last change, a clock, the standard
                  output, and a state-and-exception monad;
    - [zipfile], [tarfile]  the two writer libraries, reduced to the calls
                  the program makes, with what they do to a member name;
    - [EvilArc]   [build_archive] and [main], line by line;
    - the theorems.

    What is assumed of the environment:
    - strings are sequences of characters with codes below 256, none of
      them the NUL character (the arguments of a process cannot hold one);
      the characters the program inspects ('/', '\', '.', the letters of
      the extensions) are ASCII, and [lower] acts on ASCII letters;
    - the system is POSIX, and a path with exactly two leading slashes has
      a root of its own, as [normpath] assumes;
    - there are no symbolic links; every component of a path but the last
      names a directory that exists and can be entered (no path walks
      through a regular file or a missing directory); a path names a
      directory exactly when its last component is empty, [.] or [..],
      and every other path names a regular file or nothing; files can be
      read and written;
    - the disk has room, and nothing but the program changes it. *)

From Stdlib Require Import ZArith Ascii String List Bool Lia.
From stdpp Require Import gmap strings list.

(** ** The [str] methods used by the program *)

Module Py.

(** [len(s)] *)
Definition len (s : string) : Z := Z.of_nat (String.length s).

(** [s[n:]] and [s[:n]] for a natural number [n]. *)
Fixpoint drop (n : nat) (s : string) : string :=
  match n, s with
  | O, _ => s
  | S _, EmptyString => EmptyString
  | S n', String _ s' => drop n' s'
  end.

Fixpoint take (n : nat) (s : string) : string :=
  match n, s with
  | O, _ => EmptyString
  | S _, EmptyString => EmptyString
  | S n', String a s' => String a (take n' s')
  end.

(** A slice bound: negative bounds count from the end, and every bound is
    clipped to the string. *)
Definition bound (i : Z) (s : string) : nat :=
  if (i <? 0)%Z then Z.to_nat (Z.max 0 (len s + i)) else Z.to_nat i.

(** [s[i:]], [s[:j]] and [s[i:j]] *)
Definition slice_from (i : Z) (s : string) : string := drop (bound i s) s.
Definition slice_to (j : Z) (s : string) : string := take (bound j s) s.
Definition slice (i j : Z) (s : string) : string :=
  take (bound j s - bound i s) (drop (bound i s) s).

(** [s.rfind(c)] for a one-character needle: the highest index of [c] in
    [s], or [-1]. *)
Fixpoint rfind (c : ascii) (s : string) : Z :=
  match s with
  | EmptyString => (-1)%Z
  | String a s' =>
      let r := rfind c s' in
      if (0 <=? r)%Z then (r + 1)%Z
      else if Ascii.eqb a c then 0%Z else (-1)%Z
  end.

(** [s.startswith(p)] *)
Definition startswith (s p : string) : bool := String.prefix p s.

(** [s.endswith(p)] and [s.endswith((p1, p2, ...))] *)
Definition endswith (s p : string) : bool :=
  (String.length p <=? String.length s)%nat
  && String.eqb (drop (String.length s - String.length p) s) p.

Definition endswith_any (s : string) (ps : list string) : bool :=
  existsb (endswith s) ps.

(** [s.lower()] on ASCII letters. *)
Definition lower_char (c : ascii) : ascii :=
  let n := N_of_ascii c in
  if ((65 <=? n) && (n <=? 90))%N then ascii_of_N (n + 32) else c.

Fixpoint lower (s : string) : string :=
  match s with
  | EmptyString => EmptyString
  | String a s' => String (lower_char a) (lower s')
  end.

(** [s.split(sep)] for a one-character separator; never empty. *)
Fixpoint split (sep : ascii) (s : string) : list string :=
  match s with
  | EmptyString => [EmptyString]
  | String a s' =>
      match split sep s' with
      | [] => [EmptyString]
      | w :: ws =>
          if Ascii.eqb a sep then EmptyString :: w :: ws
          else String a w :: ws
      end
  end.

(** [s.lstrip(c)] for a one-character set. *)
Fixpoint lstrip (c : ascii) (s : string) : string :=
  match s with
  | EmptyString => EmptyString
  | String a s' => if Ascii.eqb a c then lstrip c s' else s
  end.

(** [sep.join(l)] *)
Fixpoint join (sep : string) (l : list string) : string :=
  match l with
  | [] => EmptyString
  | [x] => x
  | x :: l' => x +:+ sep +:+ join sep l'
  end.

(** [c * n] for a string [c] *)
Fixpoint repeat (c : string) (n : nat) : string :=
  match n with
  | O => EmptyString
  | S n' => c +:+ repeat c n'
  end.

(** The truth value of a string: [bool(s)]. *)
Definition truthy (s : string) : bool :=
  match s with EmptyString => false | _ => true end.

(** [c in s] for a one-character needle. *)
Fixpoint contains (c : ascii) (s : string) : bool :=
  match s with
  | EmptyString => false
  | String a s' => Ascii.eqb a c || contains c s'
  end.

(** [x in l] for a list, tuple or set of strings. *)
Definition mem (x : string) (l : list string) : bool :=
  existsb (String.eqb x) l.

End Py.

(** ** The [os.path] functions used by the program (module [posixpath]) *)

Module posixpath.

Definition sep : ascii := "/"%char.
Definition extsep : ascii := "."%char.

(** [isabs(s)]: [s.startswith('/')] *)
Definition isabs (s : string) : bool := Py.startswith s "/".

(** [join(a, b)] with one further component. *)
Definition join (a b : string) : string :=
  if Py.startswith b "/" then b
  else if negb (Py.truthy a) || Py.endswith a "/" then a +:+ b
  else a +:+ "/" +:+ b.

(** [basename(p)]: [i = p.rfind('/') + 1; return p[i:]] *)
Definition basename (p : string) : string :=
  let i := (Py.rfind sep p + 1)%Z in
  Py.slice_from i p.

(** The scan of [_splitext] over the leading dots of the file name:
    [n] positions starting at [filenameIndex] remain before [dotIndex]. *)
Fixpoint skip_leading_dots (p : string) (filenameIndex : Z) (n : nat) : bool :=
  match n with
  | O => false
  | S n' =>
      if negb (String.eqb (Py.slice filenameIndex (filenameIndex + 1) p) ".")
      then true
      else skip_leading_dots p (filenameIndex + 1) n'
  end.

(** [splitext(p)], through [genericpath._splitext(p, '/', None, '.')]. *)
Definition splitext (p : string) : string * string :=
  let sepIndex := Py.rfind sep p in
  let dotIndex := Py.rfind extsep p in
  if (sepIndex <? dotIndex)%Z
     && skip_leading_dots p (sepIndex + 1)
          (Z.to_nat (dotIndex - (sepIndex + 1)))
  then (Py.slice_to dotIndex p, Py.slice_from dotIndex p)
  else (p, Py.slice_to 0 p).

(** One round of the loop of [normpath] over the components. *)
Definition normpath_step (initial_slashes : nat)
    (new_comps : list string) (comp : string) : list string :=
  if Py.mem comp [""; "."] then new_comps
  else if negb (String.eqb comp "..")
          || ((initial_slashes =? 0)%nat && bool_decide (new_comps = []))
          || (negb (bool_decide (new_comps = []))
              && String.eqb (List.last new_comps "") "..")
  then new_comps ++ [comp]
  else if negb (bool_decide (new_comps = [])) then List.removelast new_comps
  else new_comps.

(** [normpath(path)] *)
Definition normpath (path : string) : string :=
  if String.eqb path "" then "."
  else
    let initial_slashes :=
      if Py.startswith path "/" then
        if Py.startswith path "//" && negb (Py.startswith path "///")
        then 2%nat else 1%nat
      else 0%nat in
    let comps := Py.split sep path in
    let new_comps := fold_left (normpath_step initial_slashes) comps [] in
    let path := Py.join "/" new_comps in
    let path := Py.repeat "/" initial_slashes +:+ path in
    if Py.truthy path then path else ".".

(** [abspath(path)], with [os.getcwd()] given as [cwd]. *)
Definition abspath (cwd path : string) : string :=
  let path := if negb (isabs path) then join cwd path else path in
  normpath path.

End posixpath.

(** ** The world of the program: disk, clock, standard output, exceptions *)

Module Sys.

(** The container formats the two writer libraries produce. *)
Inductive container : Type := Zip | Tar | TarGz | TarBz2.

Global Instance container_eq_dec : EqDecision container.
Proof. solve_decision. Defined.

(** One archive member: the name stored in the archive and the path of
    the file it was read from. *)
Record entry : Type := Entry { arcname : string; source : string }.

Global Instance entry_eq_dec : EqDecision entry.
Proof. solve_decision. Defined.

(** What a regular file holds: an archive with its members in directory
    order, or anything else. *)
Inductive node : Type :=
| Plain
| Archive (k : container) (members : list entry).

(** A regular file: the year of its last change (local time) and what it
    holds. *)
Record file : Type := File { year : Z; data : node }.

(** The disk maps canonical absolute paths to regular files; [clock] is
    the current year. *)
Record world : Type := World {
  disk : gmap string file;
  clock : Z;
  stdout : list string
}.

(** [NotModelled] marks the calls whose effect this development does
    not describe: adding a directory, copying a zip archive into itself,
    and opening an archive in a mode the program never passes. *)
Inductive exn : Type :=
| SystemExit (msg : string)
| FileNotFoundError (path : string)
| ReadError (path : string)
| KeyError (key : string)
| ValueError (what : string)
| IndexError (what : string)
| StructError (what : string)
| OSError (path : string)
| NotModelled (what : string).

Inductive result (A : Type) : Type :=
| Ok (a : A)
| Raise (e : exn).
Global Arguments Ok {A} a.
Global Arguments Raise {A} e.

(** Computations that read and write the world and may raise. *)
Definition M (A : Type) : Type := world -> world * result A.

Definition ret {A} (a : A) : M A := fun w => (w, Ok a).
Definition raise {A} (e : exn) : M A := fun w => (w, Raise e).
Definition bind {A B} (m : M A) (k : A -> M B) : M B :=
  fun w =>
    match m w with
    | (w', Ok a) => k a w'
    | (w', Raise e) => (w', Raise e)
    end.

(** [for x in l: body(x)] *)
Fixpoint for_each {A} (l : list A) (body : A -> M unit) : M unit :=
  match l with
  | [] => ret tt
  | x :: l' => bind (body x) (fun _ => for_each l' body)
  end.

(** [sys.exit(msg)] *)
Definition exit {A} (msg : string) : M A := raise (SystemExit msg).

(** [print(line)] *)
Definition print (line : string) : M unit :=
  fun w => (World (disk w) (clock w) (stdout w ++ [line]), Ok tt).

(** [d[key]] for a dict literal given as its items. *)
Fixpoint dict_get (d : list (string * string)) (key : string) : M string :=
  match d with
  | [] => raise (KeyError key)
  | (k, v) :: d' => if String.eqb k key then ret v else dict_get d' key
  end.

(** A path can name a regular file when its last component is a name:
    not empty (no trailing slash), not [.] and not [..]. *)
Definition names_file (p : string) : bool :=
  negb (Py.mem (posixpath.basename p) [""; "."; ".."]).

Section Paths.
Variable cwd : string.

(** The regular file a path names, if any. *)
Definition lookup (p : string) (w : world) : option file :=
  if names_file p then disk w !! posixpath.abspath cwd p else None.

(** What the regular file a path names holds. *)
Definition stat (p : string) (w : world) : option node :=
  data <$> lookup p w.

(** [os.path.exists(p)]: a regular file; or a directory, which a path
    whose last component is empty, [.] or [..] names. *)
Definition path_exists (p : string) : M bool :=
  fun w =>
    (w, Ok (if names_file p then bool_decide (is_Some (stat p w)) else true)).

(** [os.path.isfile(p)] *)
Definition isfile (p : string) : M bool :=
  fun w => (w, Ok (bool_decide (is_Some (stat p w)))).

(** Write the file a path names: it holds [n] and is as new as the
    clock. *)
Definition store (p : string) (n : node) (w : world) : world :=
  World (<[posixpath.abspath cwd p := File (clock w) n]> (disk w))
    (clock w) (stdout w).
End Paths.

(** The members of an archive of kind [k]; a file of any other kind has
    none. *)
Definition members_of (k : container) (n : option node) : list entry :=
  match n with
  | Some (Archive k' ms) => if bool_decide (k' = k) then ms else []
  | _ => []
  end.

(** An open archive: the output path it was opened under, and its kind. *)
Record handle : Type := Handle { h_path : string; h_kind : container }.

(** Put one member at the end of the directory of an open archive. *)
Definition append_member (cwd : string) (h : handle) (e : entry)
    (w : world) : world :=
  let ms := members_of (h_kind h) (stat cwd (h_path h) w) in
  store cwd (h_path h) (Archive (h_kind h) (ms ++ [e])) w.

(** Write the directory of an open archive again, as it is. *)
Definition touch (cwd : string) (h : handle) (w : world) : world :=
  let ms := members_of (h_kind h) (stat cwd (h_path h) w) in
  store cwd (h_path h) (Archive (h_kind h) ms) w.

(** What a writer decides about one input: add a member, pass over the
    input, raise before it touches the archive, or raise after it has
    marked the archive as changed. *)
Inductive verdict : Type :=
| Added (e : entry)
| Skipped
| Stopped (x : exn)
| Touched (x : exn).

Definition perform (cwd : string) (h : handle) (v : verdict) : M unit :=
  fun w =>
    match v with
    | Added e => (append_member cwd h e w, Ok tt)
    | Skipped => (w, Ok tt)
    | Stopped x => (w, Raise x)
    | Touched x => (touch cwd h w, Raise x)
    end.

End Sys.

Declare Scope py_scope.
Delimit Scope py_scope with py.
Notation "'let*' x := m 'in' k" := (Sys.bind m (fun x => k))
  (at level 10, x name, m at level 100, k at level 200) : py_scope.
Notation "m ;; k" := (Sys.bind m (fun _ => k))
  (at level 100, k at level 200, right associativity) : py_scope.

(** ** The writer libraries, reduced to the calls the program makes

    An archive opened for writing starts empty; one opened for appending
    keeps the members it has.  The directory of the archive is kept on the
    disk after every call, which is what closing the archive at the end of
    a [with] block leaves there on every exit path. *)

Module zipfile.
Import Sys.

(** The name [ZipInfo.from_file] gives a member: the [normpath] of the
    name it was asked for, without leading slashes. *)
Definition member_name (arc : string) : string :=
  Py.lstrip "/" (posixpath.normpath arc).

(** [zipfile.ZipFile(file, mode)].  The program passes ['w'] or ['a'];
    appending to a zip archive changes nothing yet, appending to a file
    that is no zip archive, or to no file, starts a new, empty archive. *)
Definition ZipFile (cwd file mode : string) : M handle :=
  fun w =>
    if negb (Py.mem mode ["r"; "w"; "x"; "a"]) then
      (w, Raise (ValueError mode))
    else if negb (names_file file) then (w, Raise (OSError file))
    else if String.eqb mode "w" then
      (store cwd file (Archive Zip []) w, Ok (Handle file Zip))
    else if String.eqb mode "a" then
      match stat cwd file w with
      | Some (Archive Zip ms) => (w, Ok (Handle file Zip))
      | _ => (store cwd file (Archive Zip []) w, Ok (Handle file Zip))
      end
    else (w, Raise (NotModelled mode)).

(** What [zf.write(filename, arcname)] decides.  [os.stat] finds the
    file; the member name must not be empty; the year must be 1980 or
    later for [ZipInfo], and 2107 or earlier for the header, which is
    packed when the archive is already marked as changed. *)
Definition examine (cwd archive filename arc : string) (w : world)
    : verdict :=
  if negb (names_file filename) then
    Stopped (NotModelled "a path that names a directory")
  else if String.eqb (posixpath.abspath cwd filename)
                     (posixpath.abspath cwd archive) then
    Stopped (NotModelled "a zip archive copied into itself")
  else
    match lookup cwd filename w with
    | None => Stopped (FileNotFoundError filename)
    | Some f =>
        let name := member_name arc in
        if String.eqb name "" then
          Stopped (IndexError "string index out of range")
        else if (year f <? 1980)%Z then
          Stopped (ValueError "ZIP does not support timestamps before 1980")
        else if (2107 <? year f)%Z then
          Touched (StructError "ushort format requires 0 <= number <= 65535")
        else Added (Entry name filename)
    end.

(** [zf.write(filename, arcname)] *)
Definition write (cwd : string) (zf : handle) (filename arc : string)
    : M unit :=
  fun w => perform cwd zf (examine cwd (h_path zf) filename arc w) w.
End zipfile.

Module tarfile.
Import Sys.

(** The name [gettarinfo] gives a member: the name it was asked for,
    without leading slashes. *)
Definition member_name (arc : string) : string := Py.lstrip "/" arc.

(** [tarfile.open(name, mode)].  The program passes ['w'], ['a'],
    ['w:gz'] or ['w:bz2'].  Appending needs an uncompressed tar archive,
    or no file at all. *)
Definition open (cwd name mode : string) : M handle :=
  fun w =>
    if negb (Py.mem mode ["w"; "a"; "w:gz"; "w:bz2"]) then
      (w, Raise (NotModelled mode))
    else if negb (names_file name) then (w, Raise (OSError name))
    else if String.eqb mode "w" then
      (store cwd name (Archive Tar []) w, Ok (Handle name Tar))
    else if String.eqb mode "w:gz" then
      (store cwd name (Archive TarGz []) w, Ok (Handle name TarGz))
    else if String.eqb mode "w:bz2" then
      (store cwd name (Archive TarBz2 []) w, Ok (Handle name TarBz2))
    else
      match stat cwd name w with
      | None => (store cwd name (Archive Tar []) w, Ok (Handle name Tar))
      | Some (Archive Tar ms) =>
          (store cwd name (Archive Tar ms) w, Ok (Handle name Tar))
      | Some _ => (w, Raise (ReadError name))
      end.

(** What [tf.add(name, arcname)] decides.  The archive itself is passed
    over; then [os.lstat] must find the file. *)
Definition examine (cwd archive name arc : string) (w : world) : verdict :=
  if String.eqb (posixpath.abspath cwd name)
                (posixpath.abspath cwd archive) then Skipped
  else if negb (names_file name) then
    Stopped (NotModelled "a path that names a directory")
  else
    match lookup cwd name w with
    | None => Stopped (FileNotFoundError name)
    | Some _ => Added (Entry (member_name arc) name)
    end.

(** [tf.add(name, arcname)] *)
Definition add (cwd : string) (tf : handle) (name arc : string) : M unit :=
  fun w => perform cwd tf (examine cwd (h_path tf) name arc w) w.
End tarfile.

(** ** The program *)

Module EvilArc.
Import Sys.
Local Open Scope py_scope.

(** Lines 28-29 of [build_archive]: ensure a trailing slash or backslash
    on the traversal path. *)
Definition normalize (traversal_path : string) : string :=
  if Py.truthy traversal_path
     && negb (Py.endswith_any traversal_path ["/"; "\"])
  then traversal_path +:+ "/"
  else traversal_path.

(** Line 31: the lower-cased extension of the output name. *)
Definition extension (out_name : string) : string :=
  Py.lower (snd (posixpath.splitext out_name)).

Section Process.
Variable cwd : string.

(** The closure [internal_name] of [build_archive]; [traversal_path] is
    the variable it captures, already reassigned by lines 28-29. *)
Definition internal_name (traversal_path target fname : string) : string :=
  if String.eqb (posixpath.abspath cwd fname) (posixpath.abspath cwd target)
  then traversal_path +:+ posixpath.basename fname
  else posixpath.basename fname.

Definition build_archive (files : list string)
    (traversal_path target out_name : string) : M unit :=
  let traversal_path := normalize traversal_path in
  let ext := extension out_name in
  let* out_exists := path_exists cwd out_name in
  let wmode := if out_exists : bool then "a" else "w" in
  let internal_name := internal_name traversal_path target in
  if Py.mem ext [".zip"; ".jar"] then
    let* zf := zipfile.ZipFile cwd out_name wmode in
    for_each files (fun f => zipfile.write cwd zf f (internal_name f))
  else if Py.mem ext [".tar"; ".gz"; ".tgz"; ".bz2"] then
    let* mode := dict_get [(".tar", wmode); (".gz", "w:gz");
                           (".tgz", "w:gz"); (".bz2", "w:bz2")] ext in
    let* tf := tarfile.open cwd out_name mode in
    for_each files (fun f => tarfile.add cwd tf f (internal_name f))
  else exit ("Unsupported archive extension: " +:+ ext).

(** The parsed command line. *)
Record args : Type := Args {
  path : string;
  target : string;
  output : string;
  files : list string
}.

(** [main], after [parser.parse_args()]. *)
Definition main (a : args) : M unit :=
  for_each (files a) (fun f =>
    let* ok := isfile cwd f in
    if negb ok then exit ("File not found: " +:+ f) else ret tt) ;;
  (if negb (Py.mem (target a) (files a))
   then exit "The file specified with --target must be in the input file list."
   else ret tt) ;;
  build_archive (files a) (path a) (target a) (output a) ;;
  print ("Created " +:+ output a +:+ " with traversal path applied to "
         +:+ target a).
End Process.

End EvilArc.

(** ** Vocabulary of the specification

    The notions the properties below are phrased in.  None of them is used
    by the program; each is related to the program by a lemma. *)

Module Spec.
Import Sys.

(** The format table of the specification: the writer chosen for a
    lower-cased extension. *)
Definition select_writer (ext : string) : option container :=
  if String.eqb ext ".zip" || String.eqb ext ".jar" then Some Zip
  else if String.eqb ext ".tar" then Some Tar
  else if String.eqb ext ".gz" || String.eqb ext ".tgz" then Some TarGz
  else if String.eqb ext ".bz2" then Some TarBz2
  else None.

(** The members an archive of kind [k] starts with when it is opened over
    the file [n]: the zip and plain tar writers append to an archive that
    is already there, the compressed writers start afresh.  [None] when
    the plain tar writer cannot read the file that is there. *)
Definition opening (k : container) (n : option node) : option (list entry) :=
  match k, n with
  | Zip, _ => Some (members_of Zip n)
  | Tar, None => Some []
  | Tar, Some (Archive Tar ms) => Some ms
  | Tar, Some _ => None
  | (TarGz | TarBz2), _ => Some []
  end.

(** The world once the output is open as an archive of kind [k] with the
    members [ms]: a zip archive that is appended to is not written yet. *)
Definition opened (cwd out : string) (k : container) (ms : list entry)
    (w : world) : world :=
  match k, stat cwd out w with
  | Zip, Some (Archive Zip _) => w
  | _, _ => store cwd out (Archive k ms) w
  end.

(** The world once the members [es] were added to the open archive. *)
Definition written (cwd out : string) (k : container) (ms es : list entry)
    (w : world) : world :=
  match es with
  | [] => w
  | _ => store cwd out (Archive k (ms ++ es)) w
  end.

(** The name a writer of kind [k] stores for the name it is handed. *)
Definition stored_name (k : container) (arc : string) : string :=
  match k with
  | Zip => zipfile.member_name arc
  | _ => tarfile.member_name arc
  end.

(** What the writer of kind [k] decides about the input [f]. *)
Definition examine (k : container) (cwd out f arc : string) (w : world)
    : verdict :=
  match k with
  | Zip => zipfile.examine cwd out f arc w
  | _ => tarfile.examine cwd out f arc w
  end.

(** The members added up to the first verdict that stops the build, and
    the exception of that verdict, with whether the archive was marked as
    changed by it. *)
Fixpoint collect (vs : list verdict) : list entry * option (exn * bool) :=
  match vs with
  | [] => ([], None)
  | Added e :: vs' => let '(es, x) := collect vs' in (e :: es, x)
  | Skipped :: vs' => collect vs'
  | Stopped x :: _ => ([], Some (x, false))
  | Touched x :: _ => ([], Some (x, true))
  end.

(** The world once the build is over: the members [es] were added, and
    the archive is written also when the verdict that stopped the build
    had marked it as changed. *)
Definition finished (cwd out : string) (k : container) (ms es : list entry)
    (stop : option (exn * bool)) (w : world) : world :=
  match stop with
  | Some (_, true) => store cwd out (Archive k (ms ++ es)) w
  | _ => written cwd out k ms es w
  end.

(** What a build does, in one expression: it stops at an extension outside
    the table, or at an output file the plain tar writer cannot append to;
    otherwise it opens the archive and adds the members the writer decides
    on, input by input, up to the first input the writer stops at. *)
Definition outcome (cwd : string) (files : list string)
    (tp target out : string) (w : world) : world * result unit :=
  match select_writer (EvilArc.extension out) with
  | None =>
      (w, Raise (SystemExit ("Unsupported archive extension: "
                             +:+ EvilArc.extension out)))
  | Some k =>
      match opening k (stat cwd out w) with
      | None => (w, Raise (ReadError out))
      | Some ms =>
          let '(es, x) :=
            collect
              (map (fun f =>
                      examine k cwd out f
                        (EvilArc.internal_name cwd (EvilArc.normalize tp)
                           target f) w)
                 files) in
          (finished cwd out k ms es x (opened cwd out k ms w),
           match x with
           | None => Ok tt
           | Some (e, _) => Raise e
           end)
      end
  end.

(** The input files up to the first one that is not a file, and that
    one. *)
Fixpoint readable (cwd : string) (w : world) (files : list string)
    : list string * option string :=
  match files with
  | [] => ([], None)
  | f :: fs =>
      match stat cwd f w with
      | None => ([], Some f)
      | Some _ => let '(ok, bad) := readable cwd w fs in (f :: ok, bad)
      end
  end.

(** The name and the file the program hands to the writer for the input
    [f]. *)
Definition entry_of (cwd tp target f : string) : entry :=
  Entry (EvilArc.internal_name cwd (EvilArc.normalize tp) target f) f.

(** The member a writer of kind [k] stores for the input [f]. *)
Definition stored_entry (k : container) (cwd tp target f : string) : entry :=
  Entry (stored_name k (arcname (entry_of cwd tp target f))) f.

(** The inputs that are not the output archive itself. *)
Definition kept (cwd out : string) (files : list string) : list string :=
  filter (fun f => posixpath.abspath cwd f <> posixpath.abspath cwd out) files.

(** An input a writer of kind [k] can add: it is not the output, it is a
    file, and for the zip writer its year fits the format. *)
Definition addable (k : container) (cwd out : string) (w : world)
    (f : string) : bool :=
  negb (String.eqb (posixpath.abspath cwd f) (posixpath.abspath cwd out))
  && match lookup cwd f w with
     | None => false
     | Some fl =>
         match k with
         | Zip => (1980 <=? year fl)%Z && (year fl <=? 2107)%Z
         | _ => true
         end
     end.

(** A path whose last component can name a regular file: it is not empty
    (the path does not end in a slash) and is neither [.] nor [..]. *)
Definition names_file (p : string) : bool := Sys.names_file p.



Definition plain (e : entry) : Prop :=
  arcname e = posixpath.basename (source e).


(** A string made of dots only. *)
Fixpoint all_dots (s : string) : bool :=
  match s with
  | EmptyString => true
  | String a s' => Ascii.eqb a "."%char && all_dots s'
  end.

End Spec.

(** ** Sample worlds

    A working directory [/w] with two input files last changed in 2024,
    the clock at 2025; the same with a zip archive of one member already
    at [/w/x.zip]; the same with a third file last changed in 1975; and,
    a year later, the archive and a file dated 2108. *)

Module Demo.
Import Sys.

Definition cwd : string := "/w".

Definition two_files : world :=
  World (<["/w/b.txt" := File 2024 Plain]>
           (<["/w/a.txt" := File 2024 Plain]> ∅))
    2025 [].

Definition with_archive : world :=
  store cwd "x.zip" (Archive Zip [Entry "old.txt" "old.txt"]) two_files.

Definition with_old_file : world :=
  World (<["/w/old.txt" := File 1975 Plain]> (disk two_files)) 2025 [].

Definition with_late_file : world :=
  World (<["/w/late.txt" := File 2108 Plain]> (disk with_archive)) 2026 [].

End Demo.

(** * Facts about the string functions *)

Section StrFacts.

Lemma app_empty_l (s : string) : "" +:+ s = s.
Proof. reflexivity. Qed.

Lemma app_cons (a : ascii) (s t : string) :
  String a s +:+ t = String a (s +:+ t).
Proof. reflexivity. Qed.

Lemma app_empty_r (s : string) : s +:+ "" = s.
Proof.
  induction s as [|a s IH]; [reflexivity |]. by rewrite app_cons, IH.
Qed.

Lemma app_assoc' (s t u : string) : (s +:+ t) +:+ u = s +:+ t +:+ u.
Proof.
  induction s as [|a s IH]; [reflexivity |]. by rewrite !app_cons, IH.
Qed.

Lemma length_app' (s t : string) :
  String.length (s +:+ t) = (String.length s + String.length t)%nat.
Proof.
  induction s as [|a s IH]; [reflexivity |]. rewrite app_cons. simpl.
  by rewrite IH.
Qed.

Lemma drop_0 (s : string) : Py.drop 0 s = s.
Proof. by destruct s. Qed.

Lemma drop_app_length (s t : string) : Py.drop (String.length s) (s +:+ t) = t.
Proof.
  induction s as [|a s IH]; [apply drop_0 |]. rewrite app_cons. exact IH.
Qed.

Lemma take_app_length (s t : string) : Py.take (String.length s) (s +:+ t) = s.
Proof.
  induction s as [|a s IH]; [by destruct t |].
  rewrite app_cons. simpl. by rewrite IH.
Qed.

Lemma take_drop (n : nat) (s : string) : Py.take n s +:+ Py.drop n s = s.
Proof.
  revert s; induction n as [|n IH]; intros [|a s]; simpl; try reflexivity.
  by rewrite app_cons, IH.
Qed.

Lemma contains_app (c : ascii) (s t : string) :
  Py.contains c (s +:+ t) = Py.contains c s || Py.contains c t.
Proof.
  induction s as [|a s IH]; [reflexivity |]. rewrite app_cons. simpl.
  by rewrite IH, orb_assoc.
Qed.

(** [rfind] stays within the string. *)
Lemma rfind_range (c : ascii) (s : string) :
  (-1 <= Py.rfind c s < Py.len s)%Z.
Proof.
  unfold Py.len. induction s as [|a s IH]; simpl; [lia |].
  destruct (Z.leb_spec 0 (Py.rfind c s)); [lia |].
  destruct (Ascii.eqb a c); lia.
Qed.

(** [rfind] answers [-1] exactly on the strings without the character. *)
Lemma rfind_absent (c : ascii) (s : string) :
  Py.contains c s = false <-> Py.rfind c s = (-1)%Z.
Proof.
  induction s as [|a s IH]; simpl; [done |].
  pose proof (rfind_range c s) as Hr.
  destruct (Z.leb_spec 0 (Py.rfind c s)) as [Hle|Hlt].
  - split; [| lia]. intros [_ H]%orb_false_iff. apply IH in H. lia.
  - assert (Py.rfind c s = (-1)%Z) as Hm by lia.
    apply IH in Hm. rewrite Hm, orb_false_r.
    destruct (Ascii.eqb a c); split; done.
Qed.

(** The last occurrence is the one followed by none. *)
Lemma rfind_app_absent (c : ascii) (s t : string) :
  Py.contains c t = false ->
  Py.rfind c (s +:+ String c t) = Py.len s.
Proof.
  intros Ht. unfold Py.len. induction s as [|a s IH].
  - apply rfind_absent in Ht. rewrite app_empty_l. simpl. rewrite Ht. simpl.
    by rewrite Ascii.eqb_refl.
  - rewrite app_cons. simpl. rewrite IH.
    destruct (Z.leb_spec 0 (Z.of_nat (String.length s))); lia.
Qed.

(** A suffix without the character does not move the last occurrence. *)
Lemma rfind_app_other (c : ascii) (s t : string) :
  Py.contains c t = false -> Py.rfind c (s +:+ t) = Py.rfind c s.
Proof.
  intros Ht. induction s as [|a s IH].
  - by apply rfind_absent.
  - rewrite app_cons. simpl. by rewrite IH.
Qed.

Lemma bound_nonneg (i : Z) (s : string) :
  (0 <= i)%Z -> Py.bound i s = Z.to_nat i.
Proof. intros Hi. unfold Py.bound. destruct (Z.ltb_spec i 0); [lia | done]. Qed.

Lemma slice_from_0 (s : string) : Py.slice_from 0 s = s.
Proof. apply drop_0. Qed.

Lemma slice_from_length (s t : string) : Py.slice_from (Py.len s) (s +:+ t) = t.
Proof.
  unfold Py.slice_from, Py.len. rewrite bound_nonneg by lia.
  rewrite Nat2Z.id. apply drop_app_length.
Qed.

Lemma slice_to_length (s t : string) : Py.slice_to (Py.len s) (s +:+ t) = s.
Proof.
  unfold Py.slice_to, Py.len. rewrite bound_nonneg by lia.
  rewrite Nat2Z.id. apply take_app_length.
Qed.

Lemma mem_nil (x : string) : Py.mem x [] = false.
Proof. reflexivity. Qed.

Lemma mem_cons (x y : string) (l : list string) :
  Py.mem x (y :: l) = String.eqb x y || Py.mem x l.
Proof. reflexivity. Qed.

(** A string with the character splits at its last occurrence. *)
Lemma rfind_present (c : ascii) (s : string) :
  (0 <= Py.rfind c s)%Z ->
  exists a b, s = a +:+ String c b /\ Py.contains c b = false
              /\ Py.rfind c s = Py.len a.
Proof.
  induction s as [|x s IH]; simpl; [lia |].
  destruct (Z.leb_spec 0 (Py.rfind c s)) as [Hle|Hlt].
  - intros _. destruct (IH Hle) as (a & b & -> & Hb & Hr).
    exists (String x a), b. rewrite app_cons. split; [done |]. split; [done |].
    rewrite Hr. unfold Py.len. simpl. lia.
  - destruct (Ascii.eqb_spec x c) as [->|]; [intros _ | lia].
    exists "", s. split; [done |]. split; [| done].
    pose proof (rfind_range c s). apply rfind_absent. lia.
Qed.

Lemma endswith_iff (s p : string) :
  Py.endswith s p = true <-> exists s', s = s' +:+ p.
Proof.
  unfold Py.endswith. rewrite andb_true_iff, Nat.leb_le, String.eqb_eq. split.
  - intros [_ H]. exists (Py.take (String.length s - String.length p) s).
    pose proof (take_drop (String.length s - String.length p) s) as Htd.
    by rewrite H in Htd.
  - intros [s' ->]. rewrite length_app'. split; [lia |].
    replace (String.length s' + String.length p - String.length p)%nat
      with (String.length s') by lia.
    apply drop_app_length.
Qed.

Lemma endswith_app (s p : string) : Py.endswith (s +:+ p) p = true.
Proof. apply endswith_iff. by exists s. Qed.

Lemma truthy_app_r (s t : string) :
  Py.truthy t = true -> Py.truthy (s +:+ t) = true.
Proof. destruct s; [done |]. by rewrite app_cons. Qed.

End StrFacts.

(** * Facts about the path functions *)

Section PathFacts.

(** A path is its directory part followed by its base name; the directory
    part is empty or ends in the separator. *)
Lemma basename_split (p : string) :
  exists d, p = d +:+ posixpath.basename p
            /\ (d = "" \/ exists d', d = d' +:+ "/").
Proof.
  unfold posixpath.basename.
  pose proof (rfind_range posixpath.sep p) as Hr.
  destruct (Z.leb_spec 0 (Py.rfind posixpath.sep p)) as [Hle|Hlt].
  - destruct (rfind_present _ _ Hle) as (a & b & -> & Hb & Hi).
    exists (a +:+ "/"). rewrite Hi. split; [| right; by exists a].
    change (Py.len a + 1)%Z with (Py.len a + Z.of_nat (String.length "/"))%Z.
    unfold Py.len at 1. rewrite <- Nat2Z.inj_add, <- length_app'.
    change (a +:+ String posixpath.sep b) with (a +:+ "/" +:+ b).
    rewrite <- app_assoc'. f_equal. symmetry. apply slice_from_length.
  - exists "". split; [| by left].
    replace (Py.rfind posixpath.sep p + 1)%Z with 0%Z by lia.
    by rewrite slice_from_0.
Qed.

(** The base name of a path whose last component is [b]. *)
Lemma basename_app (d b : string) :
  Py.contains posixpath.sep b = false ->
  d = "" \/ (exists d', d = d' +:+ "/") ->
  posixpath.basename (d +:+ b) = b.
Proof.
  intros Hb [->|[d' ->]]; unfold posixpath.basename.
  - rewrite app_empty_l. apply rfind_absent in Hb. rewrite Hb.
    apply slice_from_0.
  - rewrite app_assoc'. change ("/" +:+ b) with (String posixpath.sep b).
    rewrite rfind_app_absent by done.
    change (d' +:+ String posixpath.sep b) with (d' +:+ "/" +:+ b).
    rewrite <- app_assoc'.
    replace (Py.len d' + 1)%Z with (Py.len (d' +:+ "/")).
    + apply slice_from_length.
    + unfold Py.len. rewrite length_app'. simpl. lia.
Qed.

(** A base name holds no separator: it carries no directory prefix. *)
Lemma basename_no_sep (p : string) :
  Py.contains posixpath.sep (posixpath.basename p) = false.
Proof.
  unfold posixpath.basename.
  pose proof (rfind_range posixpath.sep p) as Hr.
  destruct (Z.leb_spec 0 (Py.rfind posixpath.sep p)) as [Hle|Hlt].
  - destruct (rfind_present _ _ Hle) as (a & b & -> & Hb & Hi).
    rewrite Hi.
    change (a +:+ String posixpath.sep b) with (a +:+ "/" +:+ b).
    rewrite <- app_assoc'.
    replace (Py.len a + 1)%Z with (Py.len (a +:+ "/")).
    + by rewrite slice_from_length.
    + unfold Py.len. rewrite length_app'. simpl. lia.
  - replace (Py.rfind posixpath.sep p + 1)%Z with 0%Z by lia.
    rewrite slice_from_0. apply rfind_absent. lia.
Qed.

Lemma split_nonempty (c : ascii) (s : string) : Py.split c s <> [].
Proof.
  destruct s as [|a s]; simpl; [done |].
  destruct (Py.split c s); [done |]. by destruct (Ascii.eqb a c).
Qed.

Lemma split_absent (c : ascii) (s : string) :
  Py.contains c s = false -> Py.split c s = [s].
Proof.
  induction s as [|a s IH]; simpl; [done |].
  intros [Ha Hs]%orb_false_iff. by rewrite (IH Hs), Ha.
Qed.

Lemma split_app (c : ascii) (s t : string) :
  Py.split c (s +:+ String c t) = Py.split c s ++ Py.split c t.
Proof.
  induction s as [|a s IH].
  - rewrite app_empty_l. simpl. pose proof (split_nonempty c t).
    destruct (Py.split c t); [done |]. by rewrite Ascii.eqb_refl.
  - rewrite app_cons. simpl. rewrite IH.
    pose proof (split_nonempty c s).
    destruct (Py.split c s) as [|w ws]; [done |]. simpl.
    by destruct (Ascii.eqb a c).
Qed.

Lemma join_snoc (sep : string) (l : list string) (b : string) :
  Py.join sep (l ++ [b]) =
  match l with [] => b | _ => Py.join sep l +:+ sep +:+ b end.
Proof.
  induction l as [|x l IH]; [done |].
  destruct l as [|y l]; [done |].
  change (Py.join sep ((x :: y :: l) ++ [b]))
    with (x +:+ sep +:+ Py.join sep ((y :: l) ++ [b])).
  rewrite IH.
  change (Py.join sep (x :: y :: l)) with (x +:+ sep +:+ Py.join sep (y :: l)).
  by rewrite !app_assoc'.
Qed.

(** A component that names a file is pushed by the loop of [normpath]. *)
Lemma normpath_step_name (n : nat) (st : list string) (b : string) :
  Py.mem b [""; "."; ".."] = false ->
  posixpath.normpath_step n st b = st ++ [b].
Proof.
  unfold posixpath.normpath_step, Py.mem. simpl.
  intros H. repeat (apply orb_false_iff in H as [? H]).
  by repeat match goal with Hx : String.eqb _ _ = false |- _ =>
    rewrite Hx; clear Hx end.
Qed.

(** [normpath] keeps a last component that names a file. *)
Lemma basename_normpath (d b : string) :
  Py.mem b [""; "."; ".."] = false ->
  Py.contains posixpath.sep b = false ->
  d = "" \/ (exists d', d = d' +:+ "/") ->
  posixpath.basename (posixpath.normpath (d +:+ b)) = b.
Proof.
  intros Hname Hsep Hd.
  assert (Py.truthy b = true) as Hb by (by destruct b).
  unfold posixpath.normpath.
  assert (String.eqb (d +:+ b) "" = false) as ->.
  { apply String.eqb_neq. intros H. apply (f_equal Py.truthy) in H.
    by rewrite truthy_app_r in H. }
  set (n := if Py.startswith (d +:+ b) "/" then _ else _).
  assert (n = 0 \/ n = 1 \/ n = 2)%nat as Hn.
  { subst n. destruct (Py.startswith _ "/"); [| by left].
    destruct (_ && _); auto. }
  assert (exists init, Py.split posixpath.sep (d +:+ b) = init ++ [b])
    as [init ->].
  { destruct Hd as [->|[d' ->]].
    - exists []. rewrite app_empty_l. by apply split_absent.
    - exists (Py.split posixpath.sep d'). rewrite app_assoc'.
      change ("/" +:+ b) with (String posixpath.sep b).
      by rewrite split_app, (split_absent _ b). }
  rewrite fold_left_app. simpl. rewrite normpath_step_name by done.
  rewrite join_snoc. set (st := fold_left _ init []).
  assert (exists D, Py.repeat "/" n +:+
            match st with [] => b | _ => Py.join "/" st +:+ "/" +:+ b end
            = D +:+ b /\ (D = "" \/ exists D', D = D' +:+ "/"))
    as (D & -> & HD).
  { destruct st as [|x st'].
    - exists (Py.repeat "/" n). split; [done |].
      destruct Hn as [Hn|[Hn|Hn]]; rewrite Hn; [by left | right ..].
      + by exists "".
      + by exists "/".
    - exists (Py.repeat "/" n +:+ Py.join "/" (x :: st') +:+ "/").
      rewrite !app_assoc'. split; [done |]. right.
      exists (Py.repeat "/" n +:+ Py.join "/" (x :: st')).
      by rewrite app_assoc'. }
  rewrite truthy_app_r by done. by apply basename_app.
Qed.



Lemma isabs_cons (a : ascii) (s : string) :
  posixpath.isabs (String a s) = bool_decide (a = "/"%char).
Proof.
  unfold posixpath.isabs, Py.startswith.
  change (String.prefix "/" (String a s))
    with (if ascii_dec "/" a then String.prefix "" s else false).
  destruct (ascii_dec "/" a) as [<-|Hne].
  - by destruct s.
  - symmetry. apply bool_decide_eq_false. congruence.
Qed.




End PathFacts.

(** * Facts about the traversal path and the member names *)

Section Names.

Lemma normalize_empty : EvilArc.normalize "" = "".
Proof. reflexivity. Qed.

(** A path that ends in a slash or a backslash is left alone. *)
Lemma normalize_terminated (tp : string) :
  Py.endswith_any tp ["/"; "\"] = true -> EvilArc.normalize tp = tp.
Proof.
  intros H. unfold EvilArc.normalize. by rewrite H, andb_false_r.
Qed.

(** Any other path but the empty one gets one slash. *)
Lemma normalize_open (tp : string) :
  tp <> "" -> Py.endswith_any tp ["/"; "\"] = false ->
  EvilArc.normalize tp = tp +:+ "/".
Proof.
  intros Hne H. unfold EvilArc.normalize. rewrite H.
  by destruct tp.
Qed.

Lemma normalize_slash (tp : string) :
  EvilArc.normalize (tp +:+ "/") = tp +:+ "/".
Proof.
  apply normalize_terminated. unfold Py.endswith_any. simpl.
  by rewrite endswith_app.
Qed.

Lemma normalize_backslash (tp : string) :
  EvilArc.normalize (tp +:+ "\") = tp +:+ "\".
Proof.
  apply normalize_terminated. unfold Py.endswith_any. simpl.
  by rewrite endswith_app, orb_true_r.
Qed.

Lemma normalize_cases (tp : string) :
  EvilArc.normalize tp = tp \/ EvilArc.normalize tp = tp +:+ "/".
Proof. unfold EvilArc.normalize. destruct (_ && _); auto. Qed.

Lemma normalize_idem (tp : string) :
  EvilArc.normalize (EvilArc.normalize tp) = EvilArc.normalize tp.
Proof.
  destruct (normalize_cases tp) as [H|H]; rewrite H; [done |].
  apply normalize_slash.
Qed.

(** The normalized path is empty only for the empty path. *)
Lemma normalize_nonempty (tp : string) :
  tp <> "" -> EvilArc.normalize tp <> "".
Proof.
  intros Hne. destruct (normalize_cases tp) as [H|H]; rewrite H; [done |].
  destruct tp; [done |]. by rewrite app_cons.
Qed.

Lemma internal_name_target (cwd tp target f : string) :
  posixpath.abspath cwd f = posixpath.abspath cwd target ->
  EvilArc.internal_name cwd tp target f = tp +:+ posixpath.basename f.
Proof.
  intros H. unfold EvilArc.internal_name. by rewrite H, String.eqb_refl.
Qed.



End Names.

(** * Facts about the extension of the output name *)

Section Extension.

(** Lower-casing leaves the separator and the dot alone, and creates
    neither. *)
Lemma lower_char_sep (a : ascii) :
  Ascii.eqb (Py.lower_char a) posixpath.sep = Ascii.eqb a posixpath.sep.
Proof. destruct a as [[] [] [] [] [] [] [] []]; reflexivity. Qed.

Lemma lower_char_dot (a : ascii) :
  Ascii.eqb (Py.lower_char a) posixpath.extsep = Ascii.eqb a posixpath.extsep.
Proof. destruct a as [[] [] [] [] [] [] [] []]; reflexivity. Qed.

Lemma lower_char_idem (a : ascii) :
  Py.lower_char (Py.lower_char a) = Py.lower_char a.
Proof. destruct a as [[] [] [] [] [] [] [] []]; reflexivity. Qed.

Lemma lower_idem (s : string) : Py.lower (Py.lower s) = Py.lower s.
Proof.
  induction s as [|a s IH]; simpl; [done |]. by rewrite lower_char_idem, IH.
Qed.

Lemma lower_length (s : string) : String.length (Py.lower s) = String.length s.
Proof. induction s as [|a s IH]; simpl; [done |]. by rewrite IH. Qed.

Lemma lower_drop (n : nat) (s : string) :
  Py.drop n (Py.lower s) = Py.lower (Py.drop n s).
Proof. revert s. induction n as [|n IH]; intros [|a s]; simpl; auto. Qed.

Lemma lower_take (n : nat) (s : string) :
  Py.take n (Py.lower s) = Py.lower (Py.take n s).
Proof.
  revert s. induction n as [|n IH]; intros [|a s]; simpl; auto.
  by rewrite IH.
Qed.

Lemma lower_bound (i : Z) (s : string) : Py.bound i (Py.lower s) = Py.bound i s.
Proof. unfold Py.bound, Py.len. by rewrite lower_length. Qed.

Lemma lower_rfind (c : ascii) (s : string) :
  (forall a, Ascii.eqb (Py.lower_char a) c = Ascii.eqb a c) ->
  Py.rfind c (Py.lower s) = Py.rfind c s.
Proof.
  intros Hc. induction s as [|a s IH]; simpl; [done |]. by rewrite IH, Hc.
Qed.

Lemma lower_is_dot (s : string) :
  String.eqb (Py.lower s) "." = String.eqb s ".".
Proof.
  destruct s as [|a s]; [done |].
  change (String.eqb (Py.lower (String a s)) ".")
    with (Ascii.eqb (Py.lower_char a) posixpath.extsep
          && String.eqb (Py.lower s) "").
  change (String.eqb (String a s) ".")
    with (Ascii.eqb a posixpath.extsep && String.eqb s "").
  rewrite lower_char_dot. by destruct s.
Qed.

Lemma lower_skip_leading_dots (p : string) (i : Z) (n : nat) :
  posixpath.skip_leading_dots (Py.lower p) i n
  = posixpath.skip_leading_dots p i n.
Proof.
  revert i. induction n as [|n IH]; intros i; simpl; [done |].
  unfold Py.slice. rewrite !lower_bound, lower_drop, lower_take, lower_is_dot.
  by rewrite IH.
Qed.

(** [splitext] commutes with lower-casing. *)
Lemma lower_splitext (p : string) :
  posixpath.splitext (Py.lower p)
  = (Py.lower (fst (posixpath.splitext p)),
     Py.lower (snd (posixpath.splitext p))).
Proof.
  unfold posixpath.splitext.
  rewrite (lower_rfind _ p lower_char_sep), (lower_rfind _ p lower_char_dot).
  rewrite lower_skip_leading_dots.
  unfold Py.slice_to, Py.slice_from. rewrite !lower_bound.
  destruct (_ && _); simpl; by rewrite ?lower_take, ?lower_drop.
Qed.

(** The extension does not see the letter case of the output name. *)
Lemma extension_lower (out : string) :
  EvilArc.extension (Py.lower out) = EvilArc.extension out.
Proof.
  unfold EvilArc.extension. rewrite lower_splitext. simpl. apply lower_idem.
Qed.

Lemma extension_case (out1 out2 : string) :
  Py.lower out1 = Py.lower out2 ->
  EvilArc.extension out1 = EvilArc.extension out2.
Proof.
  intros H. by rewrite <- (extension_lower out1), H, extension_lower.
Qed.

Lemma drop_S (i : nat) (p : string) (a : ascii) (rest : string) :
  Py.drop i p = String a rest -> Py.drop (S i) p = rest.
Proof.
  revert p. induction i as [|i IH]; intros [|x p]; simpl; try done.
  - by intros [= _ ->].
  - apply IH.
Qed.

Lemma length_drop (i : nat) (p : string) :
  String.length (Py.drop i p) = (String.length p - i)%nat.
Proof. revert p. induction i as [|i IH]; intros [|x p]; simpl; auto. Qed.

(** The scan finds a character other than a dot exactly when the scanned
    part of the name is not made of dots. *)
Lemma skip_leading_dots_spec (p : string) (i n : nat) :
  (i + n <= String.length p)%nat ->
  posixpath.skip_leading_dots p (Z.of_nat i) n
  = negb (Spec.all_dots (Py.take n (Py.drop i p))).
Proof.
  revert i. induction n as [|n IH]; intros i Hle; simpl.
  - by destruct (Py.drop i p).
  - unfold Py.slice. rewrite !bound_nonneg by lia.
    replace (Z.to_nat (Z.of_nat i + 1) - Z.to_nat (Z.of_nat i))%nat
      with 1%nat by lia.
    rewrite Nat2Z.id.
    destruct (Py.drop i p) as [|a rest] eqn:Hd.
    { pose proof (length_drop i p) as Hl. rewrite Hd in Hl. simpl in Hl. lia. }
    replace (Z.of_nat i + 1)%Z with (Z.of_nat (S i)) by lia.
    rewrite IH by lia. rewrite (drop_S _ _ _ _ Hd).
    change (Py.take 1 (String a rest)) with (String a (Py.take 0 rest)).
    change (Py.take (S n) (String a rest)) with (String a (Py.take n rest)).
    assert (String.eqb (String a (Py.take 0 rest)) "."
            = Ascii.eqb a posixpath.extsep) as ->.
    { change (String.eqb (String a (Py.take 0 rest)) ".")
        with (Ascii.eqb a posixpath.extsep
              && String.eqb (Py.take 0 rest) "").
      destruct rest; apply andb_true_r. }
    change (Spec.all_dots (String a (Py.take n rest)))
      with (Ascii.eqb a posixpath.extsep && Spec.all_dots (Py.take n rest)).
    by destruct (Ascii.eqb a posixpath.extsep).
Qed.

Lemma drop_app_le (i : nat) (s t : string) :
  (i <= String.length s)%nat -> Py.drop i (s +:+ t) = Py.drop i s +:+ t.
Proof.
  revert s. induction i as [|i IH]; intros s Hle.
  - by rewrite !drop_0.
  - destruct s as [|a s]; simpl in Hle; [lia |].
    rewrite app_cons. simpl. apply IH. lia.
Qed.

(** [splitext] on a name that ends in a dot and a suffix [x] without dot
    or separator: the suffix is split off unless the file name before it
    is empty or made of dots. *)
Lemma splitext_suffix (r x : string) :
  Py.contains posixpath.extsep x = false ->
  Py.contains posixpath.sep x = false ->
  posixpath.splitext (r +:+ String "." x)
  = if Spec.all_dots (posixpath.basename r)
    then (r +:+ String "." x, "")
    else (r, String "." x).
Proof.
  intros Hdot Hsep. unfold posixpath.splitext.
  change (String "." x) with (String posixpath.extsep x).
  rewrite (rfind_app_absent posixpath.extsep r x Hdot).
  rewrite (rfind_app_other posixpath.sep r (String posixpath.extsep x))
    by done.
  pose proof (rfind_range posixpath.sep r) as Hr.
  set (i := Py.rfind posixpath.sep r) in *.
  assert ((i <? Py.len r)%Z = true) as -> by (apply Z.ltb_lt; lia).
  replace (i + 1)%Z with (Z.of_nat (Z.to_nat (i + 1))) by lia.
  unfold Py.len in *.
  rewrite skip_leading_dots_spec by (rewrite length_app'; lia).
  rewrite drop_app_le by lia.
  replace (Z.to_nat (Z.of_nat (String.length r) - Z.of_nat (Z.to_nat (i + 1))))
    with (String.length (Py.drop (Z.to_nat (i + 1)) r))
    by (rewrite length_drop; lia).
  rewrite take_app_length.
  assert (Py.drop (Z.to_nat (i + 1)) r = posixpath.basename r) as ->.
  { unfold posixpath.basename, Py.slice_from. fold i.
    by rewrite bound_nonneg by lia. }
  simpl. destruct (Spec.all_dots (posixpath.basename r)); simpl; [done |].
  fold (Py.len r). by rewrite slice_to_length, slice_from_length.
Qed.

End Extension.

(** * Facts about the shape of names and extensions *)

Section NameFacts.

(** A character of the suffix is found at or after the start of the
    suffix. *)
Lemma rfind_app_present (c : ascii) (s t : string) :
  Py.contains c t = true -> (Py.len s <= Py.rfind c (s +:+ t))%Z.
Proof.
  intros Ht. unfold Py.len. induction s as [|a s IH].
  - rewrite app_empty_l. simpl.
    pose proof (rfind_range c t). pose proof (rfind_absent c t) as [_ Habs].
    destruct (Z.eq_dec (Py.rfind c t) (-1)%Z) as [Hm|Hm]; [| lia].
    rewrite (Habs Hm) in Ht. done.
  - rewrite app_cons. simpl.
    destruct (Z.leb_spec 0 (Py.rfind c (s +:+ t))); lia.
Qed.

Lemma slice_to_0 (s : string) : Py.slice_to 0 s = "".
Proof. by destruct s. Qed.

(** [splitext] cuts the name in two; the second part is empty, or a dot
    followed by characters that are neither dots nor separators. *)
Lemma splitext_shape (p : string) :
  fst (posixpath.splitext p) +:+ snd (posixpath.splitext p) = p
  /\ (snd (posixpath.splitext p) = ""
      \/ exists x, snd (posixpath.splitext p) = String "." x
                   /\ Py.contains posixpath.extsep x = false
                   /\ Py.contains posixpath.sep x = false).
Proof.
  unfold posixpath.splitext.
  destruct (_ && _) eqn:Hc; simpl.
  2:{ rewrite slice_to_0, app_empty_r. by split; [| left]. }
  apply andb_true_iff in Hc as [Hlt%Z.ltb_lt _].
  pose proof (rfind_range posixpath.sep p) as Hs.
  destruct (rfind_present posixpath.extsep p ltac:(lia))
    as (a & b & Hp & Hb & Hi).
  rewrite Hi in *.
  assert (Py.slice_to (Py.len a) p = a) as ->
    by (rewrite Hp; apply slice_to_length).
  assert (Py.slice_from (Py.len a) p = String posixpath.extsep b) as ->
    by (rewrite Hp; apply slice_from_length).
  split; [done |].
  right. exists b. split; [done |]. split; [done |].
  destruct (Py.contains posixpath.sep b) eqn:Hsep; [| done].
  assert (Py.contains posixpath.sep (String posixpath.extsep b) = true) as H
    by (simpl; by rewrite Hsep).
  apply (rfind_app_present _ a) in H. rewrite <- Hp in H. lia.
Qed.

Lemma lower_contains (c : ascii) (s : string) :
  (forall a, Ascii.eqb (Py.lower_char a) c = Ascii.eqb a c) ->
  Py.contains c (Py.lower s) = Py.contains c s.
Proof.
  intros Hc. induction s as [|a s IH]; simpl; [done |]. by rewrite IH, Hc.
Qed.

(** A name whose last component has no dot has no extension. *)
Lemma splitext_no_dot (p : string) :
  Py.contains posixpath.extsep (posixpath.basename p) = false ->
  posixpath.splitext p = (p, "").
Proof.
  intros Hdot. unfold posixpath.splitext.
  destruct (basename_split p) as (d & Hp & Hd).
  pose proof (basename_no_sep p) as Hsep.
  set (b := posixpath.basename p) in *.
  assert ((Py.rfind posixpath.sep p <? Py.rfind posixpath.extsep p)%Z = false)
    as ->; [| by rewrite slice_to_0].
  apply Z.ltb_ge. rewrite Hp.
  rewrite (rfind_app_other posixpath.extsep d b Hdot).
  destruct Hd as [->|[d' ->]].
  - rewrite app_empty_l. simpl. pose proof (rfind_range posixpath.sep b). lia.
  - rewrite app_assoc'. change ("/" +:+ b) with (String posixpath.sep b).
    rewrite rfind_app_absent by done.
    rewrite (rfind_app_other posixpath.extsep d' "/") by done.
    pose proof (rfind_range posixpath.extsep d'). lia.
Qed.

(** The shape of a normalized traversal path. *)
Lemma normalize_shape (tp : string) :
  (tp = "" /\ EvilArc.normalize tp = "")
  \/ (tp <> ""
      /\ Py.endswith_any (EvilArc.normalize tp) ["/"; "\"] = true
      /\ ((Py.endswith_any tp ["/"; "\"] = true /\ EvilArc.normalize tp = tp)
          \/ (Py.endswith_any tp ["/"; "\"] = false
              /\ EvilArc.normalize tp = tp +:+ "/"))).
Proof.
  destruct (decide (tp = "")) as [->|Hne]; [by left | right].
  split; [done |].
  destruct (Py.endswith_any tp ["/"; "\"]) eqn:Hend.
  - rewrite normalize_terminated by done. split; [done | by left].
  - rewrite normalize_open by done. split; [| by right].
    unfold Py.endswith_any. simpl. by rewrite endswith_app.
Qed.

End NameFacts.

(** * Facts about spellings of one file *)

Section SpellingFacts.

Lemma prefix_cons (a b : ascii) (s t : string) :
  String.prefix (String a s) (String b t)
  = if ascii_dec a b then String.prefix s t else false.
Proof. reflexivity. Qed.

Lemma prefix_empty (t : string) : String.prefix "" t = true.
Proof. by destruct t. Qed.

(** Whether a path starts with one, two or three slashes is not changed by
    a "./" put before a relative rest. *)
Lemma startswith_slashes_dot (x p : string) (k : nat) :
  Py.startswith p "/" = false ->
  Py.startswith (x +:+ "./" +:+ p) (Py.repeat "/" (S k))
  = Py.startswith (x +:+ p) (Py.repeat "/" (S k)).
Proof.
  intros Hp. unfold Py.startswith in *. revert k.
  induction x as [|c x IH]; intros k.
  - rewrite !app_empty_l.
    change (Py.repeat "/" (S k)) with (String "/" (Py.repeat "/" k)).
    change ("./" +:+ p) with (String "." ("/" +:+ p)).
    rewrite prefix_cons. destruct (ascii_dec "/" "."); [done |].
    destruct p as [|b p]; [done |].
    rewrite prefix_cons in *. destruct (ascii_dec "/" b); [| done].
    by rewrite prefix_empty in Hp.
  - rewrite !app_cons.
    change (Py.repeat "/" (S k)) with (String "/" (Py.repeat "/" k)).
    rewrite !prefix_cons. destruct (ascii_dec "/" c); [| done].
    destruct k as [|k]; [by rewrite !prefix_empty | apply IH].
Qed.

(** The loop of [normpath] passes over a "." component. *)
Lemma normpath_fold_dot (n : nat) (before after : list string) :
  fold_left (posixpath.normpath_step n) (before ++ "." :: after) []
  = fold_left (posixpath.normpath_step n) (before ++ after) [].
Proof. by rewrite !fold_left_app. Qed.

(** [normpath] does not see a "./" put before a relative rest, at the
    start of the path or behind a slash. *)
Lemma normpath_dot_slash (x p : string) :
  x = "" \/ (exists x', x = x' +:+ "/") ->
  Py.startswith p "/" = false ->
  posixpath.normpath (x +:+ "./" +:+ p) = posixpath.normpath (x +:+ p).
Proof.
  intros Hx Hp.
  assert (forall y, posixpath.normpath y
    = let n := if Py.startswith y (Py.repeat "/" 1) then
                 if Py.startswith y (Py.repeat "/" 2)
                    && negb (Py.startswith y (Py.repeat "/" 3))
                 then 2%nat else 1%nat
               else 0%nat in
      let path := Py.repeat "/" n +:+
        Py.join "/" (fold_left (posixpath.normpath_step n)
                       (Py.split posixpath.sep y) []) in
      if Py.truthy path then path else ".") as Hgen.
  { intros y. unfold posixpath.normpath.
    destruct (String.eqb_spec y "") as [->|_]; done. }
  rewrite !Hgen. cbv zeta.
  rewrite !(startswith_slashes_dot x p) by done.
  set (n := if Py.startswith (x +:+ p) _ then _ else _).
  assert (fold_left (posixpath.normpath_step n)
            (Py.split posixpath.sep (x +:+ "./" +:+ p)) []
          = fold_left (posixpath.normpath_step n)
              (Py.split posixpath.sep (x +:+ p)) []) as ->; [| done].
  destruct Hx as [->|[x' ->]].
  - rewrite !app_empty_l.
    change ("./" +:+ p) with ("." +:+ String posixpath.sep p).
    rewrite split_app. apply (normpath_fold_dot n []).
  - rewrite !app_assoc'.
    change ("/" +:+ "./" +:+ p)
      with (String posixpath.sep ("." +:+ String posixpath.sep p)).
    change ("/" +:+ p) with (String posixpath.sep p).
    rewrite !split_app. apply normpath_fold_dot.
Qed.

(** A relative path and the same path behind "./" are the same file. *)
Lemma abspath_dot_slash (cwd p : string) :
  posixpath.isabs p = false ->
  posixpath.abspath cwd ("./" +:+ p) = posixpath.abspath cwd p.
Proof.
  intros Hp. unfold posixpath.abspath. rewrite Hp.
  change ("./" +:+ p) with (String "." ("/" +:+ p)) at 1.
  rewrite isabs_cons. simpl negb. cbv iota.
  unfold posixpath.isabs in Hp. unfold posixpath.join. rewrite Hp.
  assert (Py.startswith ("./" +:+ p) "/" = false) as ->.
  { change ("./" +:+ p) with (String "." ("/" +:+ p)).
    apply (isabs_cons "." ("/" +:+ p)). }
  destruct (negb (Py.truthy cwd) || Py.endswith cwd "/") eqn:Hc.
  - apply normpath_dot_slash; [| done].
    apply orb_true_iff in Hc as [Hc|Hc].
    + left. by destruct cwd.
    + right. by apply endswith_iff.
  - rewrite <- (app_assoc' cwd "/" ("./" +:+ p)), <- (app_assoc' cwd "/" p).
    apply normpath_dot_slash; [| done]. right. by exists cwd.
Qed.

End SpellingFacts.

(** * Facts about the world and the writers *)

Section World.
Import Sys.
Variable cwd : string.

Lemma lookup_store (p : string) (n : node) (w : world) :
  names_file p = true ->
  lookup cwd p (store cwd p n w) = Some (File (clock w) n).
Proof.
  intros Hp. unfold lookup, store. rewrite Hp. simpl.
  apply lookup_insert_eq.
Qed.

Lemma stat_store (p : string) (n : node) (w : world) :
  names_file p = true -> stat cwd p (store cwd p n w) = Some n.
Proof. intros Hp. unfold stat. by rewrite lookup_store. Qed.

(** Writing a file leaves every other file alone. *)
Lemma lookup_store_ne (p q : string) (n : node) (w : world) :
  posixpath.abspath cwd q <> posixpath.abspath cwd p ->
  lookup cwd q (store cwd p n w) = lookup cwd q w.
Proof.
  intros Hne. unfold lookup, store. simpl.
  destruct (names_file q); [| done]. by rewrite lookup_insert_ne.
Qed.

Lemma stat_store_ne (p q : string) (n : node) (w : world) :
  posixpath.abspath cwd q <> posixpath.abspath cwd p ->
  stat cwd q (store cwd p n w) = stat cwd q w.
Proof. intros Hne. unfold stat. by rewrite lookup_store_ne. Qed.

Lemma store_store (p : string) (n n' : node) (w : world) :
  store cwd p n (store cwd p n' w) = store cwd p n w.
Proof. unfold store. simpl. by rewrite insert_insert_eq. Qed.

(** Writing a file removes none. *)
Lemma stat_store_keeps (p q : string) (n : node) (w : world) :
  names_file p = true ->
  is_Some (stat cwd q w) -> is_Some (stat cwd q (store cwd p n w)).
Proof.
  intros Hp Hq.
  destruct (decide (posixpath.abspath cwd q = posixpath.abspath cwd p))
    as [Heq|Hne].
  - unfold stat, lookup, store in *. simpl.
    destruct (names_file q); [| done].
    rewrite Heq, lookup_insert_eq. simpl. eauto.
  - by rewrite stat_store_ne.
Qed.

(** What a writer decides about an input does not depend on what the
    output holds. *)
Lemma examine_store (k : container) (out f arc : string) (n : node)
    (w : world) :
  Spec.examine k cwd out f arc (store cwd out n w)
  = Spec.examine k cwd out f arc w.
Proof.
  assert (forall b : bool,
            String.eqb (posixpath.abspath cwd f) (posixpath.abspath cwd out)
            = b ->
            b = false ->
            lookup cwd f (store cwd out n w) = lookup cwd f w) as Hl.
  { intros b Hb ->. apply String.eqb_neq in Hb. by apply lookup_store_ne. }
  destruct k; simpl; unfold zipfile.examine, tarfile.examine;
    destruct (names_file f);
    destruct (String.eqb (posixpath.abspath cwd f)
                         (posixpath.abspath cwd out)) eqn:He;
    simpl; try done; by rewrite (Hl false).
Qed.

Lemma examine_written (k k' : container) (out f arc : string)
    (ms es : list entry) (w : world) :
  Spec.examine k cwd out f arc (Spec.written cwd out k' ms es w)
  = Spec.examine k cwd out f arc w.
Proof. destruct es; [done |]. apply examine_store. Qed.

Lemma examine_opened (k k' : container) (out f arc : string)
    (ms : list entry) (w : world) :
  Spec.examine k cwd out f arc (Spec.opened cwd out k' ms w)
  = Spec.examine k cwd out f arc w.
Proof.
  unfold Spec.opened.
  destruct k'; try apply examine_store.
  destruct (stat cwd out w) as [[|[] ?]|]; try apply examine_store. done.
Qed.

(** The open archive holds the members it was opened with. *)
Lemma stat_opened (k : container) (out : string) (ms : list entry)
    (w : world) :
  names_file out = true ->
  Spec.opening k (stat cwd out w) = Some ms ->
  stat cwd out (Spec.opened cwd out k ms w) = Some (Archive k ms).
Proof.
  intros Hout Hopen. unfold Spec.opened.
  destruct k; try by apply stat_store.
  destruct (stat cwd out w) as [[|[] ms']|] eqn:Hst;
    try by apply stat_store.
  by simplify_eq/=.
Qed.

(** After the members [es] were added it holds them too. *)
Lemma stat_written (k : container) (out : string) (ms es : list entry)
    (w : world) :
  names_file out = true ->
  stat cwd out w = Some (Archive k ms) ->
  stat cwd out (Spec.written cwd out k ms es w) = Some (Archive k (ms ++ es)).
Proof.
  intros Hout Hst. destruct es as [|e es]; simpl.
  - by rewrite app_nil_r.
  - by apply stat_store.
Qed.

Lemma written_store (k : container) (out : string) (ms : list entry)
    (e : entry) (es : list entry) (n : node) (w : world) :
  Spec.written cwd out k (ms ++ [e]) es
    (store cwd out (Archive k (ms ++ [e])) w)
  = Spec.written cwd out k ms (e :: es) w.
Proof.
  destruct es as [|e' es]; simpl.
  - done.
  - by rewrite store_store, <- app_assoc.
Qed.

Lemma finished_store (k : container) (out : string) (ms : list entry)
    (e : entry) (es : list entry) (x : option (exn * bool)) (w : world) :
  Spec.finished cwd out k (ms ++ [e]) es x
    (store cwd out (Archive k (ms ++ [e])) w)
  = Spec.finished cwd out k ms (e :: es) x w.
Proof.
  destruct x as [[y []]|]; simpl;
    try apply (written_store k out ms e es Plain).
  by rewrite store_store, <- app_assoc.
Qed.

(** The loop of [build_archive] over an open archive: the members the
    writer decides on are added, up to the first input it stops at. *)
Lemma for_each_perform (h : handle) (name : string -> string)
    (files : list string) (ms : list entry) (w : world) :
  names_file (h_path h) = true ->
  stat cwd (h_path h) w = Some (Archive (h_kind h) ms) ->
  for_each files
    (fun f w' =>
       perform cwd h
         (Spec.examine (h_kind h) cwd (h_path h) f (name f) w') w') w
  = let '(es, x) :=
      Spec.collect
        (map (fun f => Spec.examine (h_kind h) cwd (h_path h) f (name f) w)
           files) in
    (Spec.finished cwd (h_path h) (h_kind h) ms es x w,
     match x with
     | None => Ok tt
     | Some (e, _) => Raise e
     end).
Proof.
  intros Hout. revert ms w.
  induction files as [|f fs IH]; intros ms w Hst; simpl; [done |].
  unfold bind.
  destruct (Spec.examine (h_kind h) cwd (h_path h) f (name f) w)
    as [e| |x|x] eqn:Hv; simpl.
  - unfold append_member. rewrite Hst. simpl.
    rewrite bool_decide_eq_true_2 by done.
    set (w1 := store cwd (h_path h) _ w).
    rewrite (IH (ms ++ [e]) w1) by (by apply stat_store).
    assert (map (fun f0 => Spec.examine (h_kind h) cwd (h_path h) f0
                             (name f0) w1) fs
            = map (fun f0 => Spec.examine (h_kind h) cwd (h_path h) f0
                               (name f0) w) fs) as ->.
    { apply map_ext. intros g. apply examine_store. }
    destruct (Spec.collect _) as [es x]. subst w1.
    by rewrite finished_store.
  - apply (IH ms w Hst).
  - done.
  - unfold touch. rewrite Hst. simpl.
    rewrite bool_decide_eq_true_2 by done. by rewrite app_nil_r.
Qed.

End World.

(** * Facts about member names *)

Section MemberNames.

Lemma all_dots_app (s t : string) :
  Spec.all_dots (s +:+ t) = Spec.all_dots s && Spec.all_dots t.
Proof.
  induction s as [|a s IH]; [done |]. rewrite app_cons. simpl.
  by rewrite IH, andb_assoc.
Qed.

(** A suffix without separator extends the base name. *)
Lemma basename_app_suffix (p x : string) :
  Py.contains posixpath.sep x = false ->
  posixpath.basename (p +:+ x) = posixpath.basename p +:+ x.
Proof.
  intros Hx. destruct (basename_split p) as (d & Hp & Hd).
  rewrite Hp at 1. rewrite app_assoc'. apply basename_app; [| done].
  by rewrite contains_app, basename_no_sep, Hx.
Qed.

(** A path whose last component is not made of dots names a file. *)
Lemma names_file_not_dots (p : string) :
  Spec.all_dots (posixpath.basename p) = false -> Sys.names_file p = true.
Proof.
  unfold Sys.names_file. intros Hd.
  destruct (Py.mem _ _) eqn:Hm; [| done].
  rewrite !mem_cons, mem_nil in Hm.
  repeat (apply orb_true_iff in Hm as [Hm|Hm]);
    try apply String.eqb_eq in Hm; try done; by rewrite Hm in Hd.
Qed.

(** An output name with an extension names a file. *)
Lemma extension_names_file (out : string) :
  EvilArc.extension out <> "" -> Sys.names_file out = true.
Proof.
  unfold EvilArc.extension. intros Hext.
  destruct (splitext_shape out) as [Hcut [He|(x & He & Hdot & Hsep)]].
  { by rewrite He in Hext. }
  apply names_file_not_dots. rewrite <- Hcut, He.
  rewrite basename_app_suffix by done.
  rewrite all_dots_app.
  pose proof (splitext_suffix (fst (posixpath.splitext out)) x Hdot Hsep)
    as Hs.
  rewrite <- He, Hcut in Hs.
  destruct (Spec.all_dots (posixpath.basename (fst (posixpath.splitext out))));
    [| done].
  rewrite Hs in He. simpl in He. done.
Qed.

Lemma select_writer_names_file (out : string) (k : Sys.container) :
  Spec.select_writer (EvilArc.extension out) = Some k ->
  Sys.names_file out = true.
Proof.
  intros Hk. apply extension_names_file. intros He. by rewrite He in Hk.
Qed.

Lemma lstrip_plain (c : ascii) (s : string) :
  Py.contains c s = false -> Py.lstrip c s = s.
Proof.
  destruct s as [|a s]; simpl; [done |].
  intros [Ha _]%orb_false_iff. by rewrite Ha.
Qed.

(** Stripping leading characters keeps a last part that has none. *)
Lemma lstrip_suffix (c : ascii) (d b : string) :
  Py.contains c b = false -> b <> "" ->
  exists d', Py.lstrip c (d +:+ b) = d' +:+ b.
Proof.
  intros Hb Hne. induction d as [|a d IH].
  - exists "". by rewrite !app_empty_l, lstrip_plain.
  - rewrite app_cons. simpl. destruct (Ascii.eqb a c); [exact IH |].
    by exists (String a d).
Qed.

Lemma app_nonempty_r (s t : string) : t <> "" -> s +:+ t <> "".
Proof. intros Ht. destruct s; [done |]. by rewrite app_cons. Qed.


(** The name handed to the writer for an input that names a file names a
    file itself. *)
Lemma names_file_prefixed (tp b : string) :
  Py.mem b [""; "."; ".."] = false ->
  Py.contains posixpath.sep b = false ->
  Sys.names_file (tp +:+ b) = true.
Proof.
  intros Hb Hsep. unfold Sys.names_file.
  rewrite basename_app_suffix by done.
  assert (b <> "" /\ b <> "." /\ b <> "..") as (Hb0 & Hb1 & Hb2).
  { pose proof Hb as Hb'. rewrite !mem_cons, mem_nil in Hb'.
    repeat (apply orb_false_iff in Hb' as [?%String.eqb_neq Hb']). auto. }
  destruct (posixpath.basename tp) as [|c t]; [by rewrite app_empty_l, Hb |].
  rewrite app_cons.
  destruct (Py.mem (String c (t +:+ b)) _) eqn:Hm; [exfalso | done].
  rewrite !mem_cons, mem_nil in Hm.
  repeat (apply orb_true_iff in Hm as [Hm|Hm]);
    try apply String.eqb_eq in Hm; try done.
  - injection Hm as _ Hm. by apply (app_nonempty_r t b).
  - injection Hm as _ Hm. destruct t as [|c' t].
    + by rewrite app_empty_l in Hm.
    + rewrite app_cons in Hm. injection Hm as _ Hm.
      by apply (app_nonempty_r t b).
Qed.

(** The zip writer never ends with an empty name for it. *)
Lemma zip_member_name_nonempty (x : string) :
  Sys.names_file x = true -> zipfile.member_name x <> "".
Proof.
  intros Hx. unfold zipfile.member_name.
  destruct (basename_split x) as (d & Hxd & Hd).
  pose proof (basename_no_sep x) as Hsep.
  unfold Sys.names_file in Hx. apply negb_true_iff in Hx.
  pose proof (basename_normpath d _ Hx Hsep Hd) as Hb.
  rewrite <- Hxd in Hb.
  destruct (basename_split (posixpath.normpath x)) as (d' & Hy & _).
  rewrite Hb in Hy. rewrite Hy.
  assert (posixpath.basename x <> "") as Hne.
  { intros He. by rewrite He in Hx. }
  destruct (lstrip_suffix "/"%char d' _ Hsep Hne) as [d2 ->].
  by apply app_nonempty_r.
Qed.



End MemberNames.

(** * The build, in one expression *)

Section Build.
Import Sys.
Variable cwd : string.

(** The loop after the archive was opened as [k] with members [ms]. *)
Lemma for_each_opened (k : container) (ms : list entry)
    (files : list string) (name : string -> string) (out : string)
    (w : world) :
  names_file out = true ->
  Spec.opening k (stat cwd out w) = Some ms ->
  for_each files
    (fun f w' =>
       perform cwd (Handle out k)
         (Spec.examine k cwd out f (name f) w') w')
    (Spec.opened cwd out k ms w)
  = let '(es, x) :=
      Spec.collect
        (map (fun f => Spec.examine k cwd out f (name f) w) files) in
    (Spec.finished cwd out k ms es x (Spec.opened cwd out k ms w),
     match x with
     | None => Ok tt
     | Some (e, _) => Raise e
     end).
Proof.
  intros Hout Hopen.
  rewrite (for_each_perform cwd (Handle out k) name files ms)
    by (simpl; by try apply stat_opened).
  simpl.
  assert (map (fun f => Spec.examine k cwd out f (name f)
                          (Spec.opened cwd out k ms w)) files
          = map (fun f => Spec.examine k cwd out f (name f) w) files) as ->.
  { apply map_ext. intros f. apply examine_opened. }
  done.
Qed.

(** [build_archive] does what [Spec.outcome] says. *)
Lemma build_archive_outcome (files : list string)
    (tp target out : string) (w : world) :
  EvilArc.build_archive cwd files tp target out w
  = Spec.outcome cwd files tp target out w.
Proof.
  unfold EvilArc.build_archive, Spec.outcome.
  assert (Spec.select_writer (EvilArc.extension out) <> None ->
          names_file out = true) as Hnf.
  { destruct (Spec.select_writer (EvilArc.extension out)) as [k|] eqn:Hk;
      [| done]. intros _. by apply (select_writer_names_file out k). }
  revert Hnf. unfold Spec.select_writer.
  generalize (EvilArc.extension out) as ext. intros ext Hnf.
  unfold bind at 1. unfold path_exists at 1.
  rewrite !mem_cons, !mem_nil, !orb_false_r.
  destruct (String.eqb ext ".zip" || String.eqb ext ".jar") eqn:Hzip.
  { (* the zip writer *)
    rewrite (Hnf ltac:(done)). pose proof (Hnf ltac:(done)) as Hout.
    unfold bind at 1. unfold zipfile.ZipFile. rewrite Hout. simpl negb.
    destruct (stat cwd out w) as [n|] eqn:Hst.
    - rewrite bool_decide_eq_true_2 by eauto. cbv iota. simpl.
      pose proof (for_each_opened Zip (members_of Zip (Some n)) files
                    (EvilArc.internal_name cwd (EvilArc.normalize tp) target)
                    out w Hout) as Hloop.
      rewrite Hst in Hloop. specialize (Hloop eq_refl).
      unfold Spec.opened in *. rewrite Hst in *.
      destruct n as [|[] ms]; exact Hloop.
    - rewrite bool_decide_eq_false_2 by (by intros [? ?]). simpl.
      pose proof (for_each_opened Zip [] files
                    (EvilArc.internal_name cwd (EvilArc.normalize tp) target)
                    out w Hout) as Hloop.
      rewrite Hst in Hloop. specialize (Hloop eq_refl).
      unfold Spec.opened in *. rewrite Hst in *. exact Hloop. }
  destruct (String.eqb_spec ext ".tar") as [->|Htar].
  { (* the plain tar writer *)
    rewrite (Hnf ltac:(done)). pose proof (Hnf ltac:(done)) as Hout.
    cbn [orb].
    change (dict_get _ ".tar")
      with (ret (A:=string)
              (if bool_decide (is_Some (stat cwd out w)) then "a" else "w")).
    unfold bind at 1, ret at 1.
    unfold bind at 1. unfold tarfile.open. rewrite Hout. simpl negb.
    destruct (stat cwd out w) as [n|] eqn:Hst.
    - rewrite bool_decide_eq_true_2 by eauto. cbv iota. simpl.
      destruct n as [|[] ms]; simpl; try done.
      pose proof (for_each_opened Tar ms files
                    (EvilArc.internal_name cwd (EvilArc.normalize tp) target)
                    out w Hout) as Hloop.
      rewrite Hst in Hloop. specialize (Hloop eq_refl).
      exact Hloop.
    - rewrite bool_decide_eq_false_2 by (by intros [? ?]). simpl.
      pose proof (for_each_opened Tar [] files
                    (EvilArc.internal_name cwd (EvilArc.normalize tp) target)
                    out w Hout) as Hloop.
      rewrite Hst in Hloop. specialize (Hloop eq_refl).
      exact Hloop. }
  destruct (String.eqb_spec ext ".gz") as [->|Hgz].
  { pose proof (Hnf ltac:(done)) as Hout. rewrite Hout.
    change (dict_get _ _) with (ret (A:=string) "w:gz").
    cbn [orb].
    unfold bind at 1, ret at 1. unfold bind at 1.
    unfold tarfile.open. rewrite Hout. simpl.
    exact (for_each_opened TarGz [] files
             (EvilArc.internal_name cwd (EvilArc.normalize tp) target)
             out w Hout eq_refl). }
  destruct (String.eqb_spec ext ".tgz") as [->|Htgz].
  { pose proof (Hnf ltac:(done)) as Hout. rewrite Hout.
    change (dict_get _ _) with (ret (A:=string) "w:gz").
    cbn [orb].
    unfold bind at 1, ret at 1. unfold bind at 1.
    unfold tarfile.open. rewrite Hout. simpl.
    exact (for_each_opened TarGz [] files
             (EvilArc.internal_name cwd (EvilArc.normalize tp) target)
             out w Hout eq_refl). }
  destruct (String.eqb_spec ext ".bz2") as [->|Hbz]; [| done].
  pose proof (Hnf ltac:(done)) as Hout. rewrite Hout.
  change (dict_get _ _) with (ret (A:=string) "w:bz2").
  cbn [orb].
  unfold bind at 1, ret at 1. unfold bind at 1.
  unfold tarfile.open. rewrite Hout. simpl.
  exact (for_each_opened TarBz2 [] files
           (EvilArc.internal_name cwd (EvilArc.normalize tp) target)
           out w Hout eq_refl).
Qed.

End Build.

(** * What the writers decide, input by input *)

Section Verdicts.
Import Sys.
Variable cwd : string.

(** A file that is found is named by a path that can name one. *)
Lemma lookup_names_file (f : string) (w : world) (fl : file) :
  lookup cwd f w = Some fl -> names_file f = true.
Proof. unfold lookup. by destruct (names_file f). Qed.

Lemma stat_names_file (f : string) (w : world) :
  is_Some (stat cwd f w) -> names_file f = true.
Proof.
  unfold stat. intros [n Hn].
  destruct (lookup cwd f w) as [fl|] eqn:Hl; [| done].
  by eapply lookup_names_file.
Qed.

(** The name the program hands over for an input that names a file names
    a file too. *)
Lemma internal_name_names_file (tp target f : string) :
  names_file f = true ->
  names_file (EvilArc.internal_name cwd tp target f) = true.
Proof.
  intros Hf. unfold names_file in Hf. apply negb_true_iff in Hf.
  pose proof (basename_no_sep f) as Hsep.
  unfold EvilArc.internal_name. destruct (String.eqb _ _).
  - by apply names_file_prefixed.
  - rewrite <- (app_empty_l (posixpath.basename f)).
    by apply names_file_prefixed.
Qed.

Lemma addable_ne (k : container) (out f : string) (w : world) :
  Spec.addable k cwd out w f = true ->
  posixpath.abspath cwd f <> posixpath.abspath cwd out.
Proof.
  unfold Spec.addable. intros [H _]%andb_true_iff.
  apply negb_true_iff in H. by apply String.eqb_neq.
Qed.

Lemma addable_stat (k : container) (out f : string) (w : world) :
  Spec.addable k cwd out w f = true -> is_Some (stat cwd f w).
Proof.
  unfold Spec.addable, stat. intros [_ H]%andb_true_iff.
  destruct (lookup cwd f w); [simpl; eauto | done].
Qed.

(** What the writer of kind [k] decides about an input of the build. *)
Lemma examine_verdict (k : container) (tp target out f : string)
    (w : world) :
  match Spec.examine k cwd out f
          (EvilArc.internal_name cwd (EvilArc.normalize tp) target f) w with
  | Added e =>
      e = Spec.stored_entry k cwd tp target f
      /\ Spec.addable k cwd out w f = true
  | Skipped =>
      k <> Zip /\ posixpath.abspath cwd f = posixpath.abspath cwd out
  | Stopped _ | Touched _ =>
      Spec.addable k cwd out w f = false
      /\ (k = Zip \/ posixpath.abspath cwd f <> posixpath.abspath cwd out)
  end.
Proof.
  unfold Spec.addable.
  destruct k; simpl; unfold zipfile.examine, tarfile.examine.
  - (* the zip writer *)
    destruct (names_file f) eqn:Hnf; simpl.
    2:{ unfold lookup. rewrite Hnf. rewrite andb_false_r. auto. }
    destruct (String.eqb_spec (posixpath.abspath cwd f)
                              (posixpath.abspath cwd out)) as [Heq|Hne];
      simpl; [auto |].
    destruct (lookup cwd f w) as [fl|] eqn:Hl; [| auto].
    pose proof (internal_name_names_file (EvilArc.normalize tp) target f Hnf)
      as Hname.
    apply zip_member_name_nonempty, String.eqb_neq in Hname.
    rewrite Hname.
    destruct (Z.ltb_spec (year fl) 1980) as [Hlo|Hlo].
    { split; [| auto]. apply andb_false_iff. left. by apply Z.leb_gt. }
    destruct (Z.ltb_spec 2107 (year fl)) as [Hhi|Hhi].
    { split; [| auto]. apply andb_false_iff. right. by apply Z.leb_gt. }
    split; [done |]. apply andb_true_iff. split; by apply Z.leb_le.
  - destruct (String.eqb_spec (posixpath.abspath cwd f)
                              (posixpath.abspath cwd out)) as [Heq|Hne];
      simpl; [done |].
    destruct (names_file f) eqn:Hnf; simpl.
    2:{ unfold lookup. rewrite Hnf. auto. }
    destruct (lookup cwd f w); auto.
  - destruct (String.eqb_spec (posixpath.abspath cwd f)
                              (posixpath.abspath cwd out)) as [Heq|Hne];
      simpl; [done |].
    destruct (names_file f) eqn:Hnf; simpl.
    2:{ unfold lookup. rewrite Hnf. auto. }
    destruct (lookup cwd f w); auto.
  - destruct (String.eqb_spec (posixpath.abspath cwd f)
                              (posixpath.abspath cwd out)) as [Heq|Hne];
      simpl; [done |].
    destruct (names_file f) eqn:Hnf; simpl.
    2:{ unfold lookup. rewrite Hnf. auto. }
    destruct (lookup cwd f w); auto.
Qed.



Lemma kept_cons_ne (out f : string) (fs : list string) :
  posixpath.abspath cwd f <> posixpath.abspath cwd out ->
  Spec.kept cwd out (f :: fs) = f :: Spec.kept cwd out fs.
Proof. intros H. unfold Spec.kept. by rewrite filter_cons_True. Qed.

Lemma kept_cons_eq (out f : string) (fs : list string) :
  posixpath.abspath cwd f = posixpath.abspath cwd out ->
  Spec.kept cwd out (f :: fs) = Spec.kept cwd out fs.
Proof.
  intros H. unfold Spec.kept. rewrite filter_cons_False; [done |]. auto.
Qed.



(** The members of a build that was not stopped: one for each input that
    is not the output, each of them an input the writer can add; the zip
    writer is stopped by the output, so every input is kept. *)
Lemma collect_returns (k : container) (tp target out : string)
    (files : list string) (w : world) (es : list entry) :
  Spec.collect
    (map (fun f =>
            Spec.examine k cwd out f
              (EvilArc.internal_name cwd (EvilArc.normalize tp) target f) w)
       files) = (es, None) ->
  es = map (Spec.stored_entry k cwd tp target) (Spec.kept cwd out files)
  /\ Forall (fun f => Spec.addable k cwd out w f = true)
       (Spec.kept cwd out files)
  /\ (k = Zip -> Spec.kept cwd out files = files).
Proof.
  revert es. induction files as [|f fs IH]; simpl; intros es.
  { intros [= <-]. auto. }
  pose proof (examine_verdict k tp target out f w) as Hv.
  destruct (Spec.examine _ _ _ _ _ _) as [e| |x|x].
  - destruct Hv as [-> Hadd].
    destruct (Spec.collect _) as [es' x'] eqn:Hc.
    intros [= <- ->]. destruct (IH es' eq_refl) as (-> & Hall & Hzip).
    rewrite kept_cons_ne by by eapply addable_ne.
    split; [done |]. split; [by constructor |].
    intros Hk. by rewrite Hzip.
  - destruct Hv as [Hk Heq]. intros Hc.
    destruct (IH es Hc) as (-> & Hall & Hzip).
    rewrite kept_cons_eq by done. done.
  - done.
  - done.
Qed.



End Verdicts.

(** * The entries of a finished build *)

Section Entries.
Import Sys.
Variable cwd : string.

(** A build that returns has opened the archive and added a member for
    each input that is not the output, in order. *)
Lemma build_archive_returns (files : list string)
    (tp target out : string) (w w' : world) :
  EvilArc.build_archive cwd files tp target out w = (w', Ok tt) ->
  exists k ms,
    Spec.select_writer (EvilArc.extension out) = Some k
    /\ Spec.opening k (stat cwd out w) = Some ms
    /\ w' = Spec.written cwd out k ms
              (map (Spec.stored_entry k cwd tp target)
                 (Spec.kept cwd out files))
              (Spec.opened cwd out k ms w)
    /\ Forall (fun f => Spec.addable k cwd out w f = true)
         (Spec.kept cwd out files)
    /\ (k = Zip -> Spec.kept cwd out files = files).
Proof.
  rewrite build_archive_outcome. unfold Spec.outcome.
  destruct (Spec.select_writer _) as [k|] eqn:Hk; [| done].
  destruct (Spec.opening k _) as [ms|] eqn:Hms; [| done].
  destruct (Spec.collect _) as [es x] eqn:Hc.
  destruct x as [[e b]|]; [done |]. intros [= <-].
  apply collect_returns in Hc as (-> & Hall & Hzip).
  by exists k, ms.
Qed.


(** The output of a build that opened the archive holds the members it
    was opened with and the members added. *)
Lemma stat_built (out : string) (k : container) (ms es : list entry)
    (w : world) :
  Spec.select_writer (EvilArc.extension out) = Some k ->
  Spec.opening k (stat cwd out w) = Some ms ->
  stat cwd out (Spec.written cwd out k ms es (Spec.opened cwd out k ms w))
  = Some (Archive k (ms ++ es)).
Proof.
  intros Hk Hms. pose proof (select_writer_names_file out k Hk) as Hout.
  apply stat_written; [done |]. by apply stat_opened.
Qed.

Lemma stat_finished (out : string) (k : container) (ms es : list entry)
    (x : option (exn * bool)) (w : world) :
  Spec.select_writer (EvilArc.extension out) = Some k ->
  Spec.opening k (stat cwd out w) = Some ms ->
  stat cwd out
    (Spec.finished cwd out k ms es x (Spec.opened cwd out k ms w))
  = Some (Archive k (ms ++ es)).
Proof.
  intros Hk Hms. pose proof (select_writer_names_file out k Hk) as Hout.
  destruct x as [[y []]|]; simpl; try by apply stat_built.
  by apply stat_store.
Qed.

(** After a build that returns, the output is an archive of the selected
    kind; it holds the members it was opened with and then one member for
    each input that is not the output, at the position of that input. *)
Lemma build_archive_entries (files : list string)
    (tp target out : string) (w w' : world) :
  EvilArc.build_archive cwd files tp target out w = (w', Ok tt) ->
  exists k prior,
    Spec.select_writer (EvilArc.extension out) = Some k
    /\ Spec.opening k (stat cwd out w) = Some prior
    /\ stat cwd out w'
       = Some (Archive k
                 (prior ++ map (Spec.stored_entry k cwd tp target)
                             (Spec.kept cwd out files)))
    /\ (k = Zip -> Spec.kept cwd out files = files)
    /\ forall i f, Spec.kept cwd out files !! i = Some f ->
         names_file f = true
         /\ (prior ++ map (Spec.stored_entry k cwd tp target)
                        (Spec.kept cwd out files))
              !! (length prior + i)%nat
            = Some (Spec.stored_entry k cwd tp target f).
Proof.
  intros (k & prior & Hk & Hprior & -> & Hall & Hzip)%build_archive_returns.
  exists k, prior. split; [done |]. split; [done |].
  split; [by apply stat_built |]. split; [done |].
  intros i f Hf. split.
  - rewrite Forall_forall in Hall.
    eapply stat_names_file, addable_stat, Hall.
    by eapply list_elem_of_lookup_2.
  - rewrite lookup_app_r by lia.
    replace (length prior + i - length prior)%nat with i by lia.
    by rewrite list_lookup_fmap, Hf.
Qed.

(** The writer of a build is the one the table gives for the extension:
    outside the table the build exits; inside, the output is an archive of
    that kind afterwards, unless the plain tar writer could not read the
    file it was to append to. *)
Lemma build_archive_kind (files : list string)
    (tp target out : string) (w : world) :
  match Spec.select_writer (EvilArc.extension out) with
  | None =>
      EvilArc.build_archive cwd files tp target out w
      = (w, Raise (SystemExit ("Unsupported archive extension: "
                               +:+ EvilArc.extension out)))
  | Some k =>
      (exists ms,
         stat cwd out (fst (EvilArc.build_archive cwd files tp target out w))
         = Some (Archive k ms))
      \/ (k = Tar
          /\ EvilArc.build_archive cwd files tp target out w
             = (w, Raise (ReadError out)))
  end.
Proof.
  rewrite build_archive_outcome. unfold Spec.outcome.
  destruct (Spec.select_writer _) as [k|] eqn:Hk; [| done].
  destruct (Spec.opening k _) as [ms|] eqn:Hopen.
  - left. destruct (Spec.collect _) as [es x]. simpl.
    eexists. by apply stat_finished.
  - right. split; [| done].
    destruct k; simpl in Hopen; try done.
Qed.


(** When no input is unreadable, all of them are read. *)
Lemma readable_all (w : world) (files ok : list string) :
  Spec.readable cwd w files = (ok, None) -> ok = files.
Proof.
  revert ok. induction files as [|f fs IH]; simpl; intros ok.
  - by intros [= <-].
  - destruct (stat cwd f w); [| done].
    destruct (Spec.readable cwd w fs) as [ok' bad'].
    intros [= <- ->]. f_equal. by apply IH.
Qed.

Lemma readable_total (w : world) (files : list string) :
  (forall f, f ∈ files -> is_Some (stat cwd f w)) ->
  Spec.readable cwd w files = (files, None).
Proof.
  induction files as [|f fs IH]; simpl; intros H; [done |].
  destruct (H f) as [n ->]; [left |].
  rewrite IH; [done |]. intros g Hg. apply H. by right.
Qed.

(** The validation loop of [main] changes nothing: it returns, or exits. *)
Lemma validation_pure (files : list string) (w : world) :
  let check := fun f =>
    bind (isfile cwd f) (fun ok =>
      if negb ok then exit ("File not found: " +:+ f) else ret tt) in
  for_each files check w = (w, Ok tt)
  \/ exists msg, for_each files check w = (w, Raise (SystemExit msg)).
Proof.
  intros check. induction files as [|f fs IH]; simpl; [by left |].
  assert (check f w = (w, Ok tt)
          \/ exists msg, check f w = (w, Raise (SystemExit msg))) as Hf.
  { unfold check, bind, isfile.
    destruct (bool_decide _); simpl; [by left | right; by eexists]. }
  unfold bind. destruct Hf as [->|[msg ->]]; [exact IH |].
  right. by exists msg.
Qed.

End Entries.

(** * Facts about [main] and about what a build leaves alone *)

Section MainFacts.
Import Sys.
Variable cwd : string.

(** The validation loop stops at the first input that is not a file. *)
Lemma validation_readable (files : list string) (w : world) :
  let check := fun f =>
    bind (isfile cwd f) (fun ok =>
      if negb ok then exit ("File not found: " +:+ f) else ret tt) in
  for_each files check w
  = match Spec.readable cwd w files with
    | (_, None) => (w, Ok tt)
    | (_, Some f) => (w, Raise (SystemExit ("File not found: " +:+ f)))
    end.
Proof.
  intros check. induction files as [|f fs IH]; simpl; [done |].
  unfold bind at 1. unfold check at 1. unfold bind, isfile.
  destruct (stat cwd f w) as [n|] eqn:Hf.
  - rewrite bool_decide_eq_true_2 by eauto. simpl. rewrite IH.
    by destruct (Spec.readable cwd w fs) as [ok [g|]].
  - by rewrite bool_decide_eq_false_2 by (by intros [? ?]).
Qed.

(** The inputs before the first unreadable one are read. *)
Lemma readable_first_missing (w : world) (before after : list string)
    (f : string) :
  (forall g, g ∈ before -> is_Some (stat cwd g w)) ->
  stat cwd f w = None ->
  Spec.readable cwd w (before ++ f :: after) = (before, Some f).
Proof.
  intros Hbefore Hf. induction before as [|g gs IH]; simpl.
  - by rewrite Hf.
  - destruct (Hbefore g) as [n ->]; [left |].
    rewrite IH; [done |]. intros h Hh. apply Hbefore. by right.
Qed.

(** When nothing is unreadable, every input exists. *)
Lemma readable_exists (w : world) (files ok : list string) :
  Spec.readable cwd w files = (ok, None) ->
  forall f, f ∈ files -> is_Some (stat cwd f w).
Proof.
  revert ok. induction files as [|g gs IH]; simpl; intros ok H f Hf.
  - by apply elem_of_nil in Hf.
  - destruct (stat cwd g w) eqn:Hg; [| done].
    destruct (Spec.readable cwd w gs) as [ok' bad'] eqn:Hr.
    injection H as <- ->.
    apply elem_of_cons in Hf as [->|Hf]; [by rewrite Hg | by eapply IH].
Qed.

(** [main] in one expression: the validation, the membership test of the
    target, the build, and the confirmation line after a build that
    returned. *)
Lemma main_outcome (a : EvilArc.args) (w : world) :
  EvilArc.main cwd a w
  = match Spec.readable cwd w (EvilArc.files a) with
    | (_, Some f) => (w, Raise (SystemExit ("File not found: " +:+ f)))
    | (_, None) =>
        if Py.mem (EvilArc.target a) (EvilArc.files a) then
          match EvilArc.build_archive cwd (EvilArc.files a) (EvilArc.path a)
                  (EvilArc.target a) (EvilArc.output a) w with
          | (w', Ok _) =>
              (World (disk w') (clock w')
                 (stdout w'
                  ++ ["Created " +:+ EvilArc.output a
                      +:+ " with traversal path applied to "
                      +:+ EvilArc.target a]),
               Ok tt)
          | (w', Raise e) => (w', Raise e)
          end
        else
          (w, Raise (SystemExit
             "The file specified with --target must be in the input file list."))
    end.
Proof.
  unfold EvilArc.main. unfold bind at 1.
  pose proof (validation_readable (EvilArc.files a) w) as Hv.
  simpl in Hv. rewrite Hv. clear Hv.
  destruct (Spec.readable cwd w (EvilArc.files a)) as [ok [f|]]; [done |].
  unfold bind at 1.
  destruct (Py.mem (EvilArc.target a) (EvilArc.files a)); simpl; [| done].
  unfold bind at 1.
  destruct (EvilArc.build_archive _ _ _ _ _ w) as [w' [[]|e]]; done.
Qed.

(** Opening the archive and adding members writes the output only. *)
Lemma opened_frame (out : string) (k : container) (ms : list entry)
    (w : world) :
  stdout (Spec.opened cwd out k ms w) = stdout w
  /\ forall q,
       posixpath.abspath cwd q <> posixpath.abspath cwd out ->
       stat cwd q (Spec.opened cwd out k ms w) = stat cwd q w.
Proof.
  unfold Spec.opened.
  destruct k; try (split; [done | intros q Hq; by apply stat_store_ne]).
  destruct (stat cwd out w) as [[|[] ?]|];
    try (split; [done | intros q Hq; by apply stat_store_ne]).
  done.
Qed.

Lemma written_frame (out : string) (k : container) (ms es : list entry)
    (w : world) :
  stdout (Spec.written cwd out k ms es w) = stdout w
  /\ forall q,
       posixpath.abspath cwd q <> posixpath.abspath cwd out ->
       stat cwd q (Spec.written cwd out k ms es w) = stat cwd q w.
Proof.
  destruct es; simpl; [done |].
  split; [done | intros q Hq; by apply stat_store_ne].
Qed.

Lemma finished_frame (out : string) (k : container) (ms es : list entry)
    (x : option (exn * bool)) (w : world) :
  stdout (Spec.finished cwd out k ms es x w) = stdout w
  /\ forall q,
       posixpath.abspath cwd q <> posixpath.abspath cwd out ->
       stat cwd q (Spec.finished cwd out k ms es x w) = stat cwd q w.
Proof.
  destruct x as [[y []]|]; simpl; try apply written_frame.
  split; [done | intros q Hq; by apply stat_store_ne].
Qed.

(** The build leaves the standard output and every file but the output
    alone. *)
Lemma outcome_frame (files : list string) (tp target out : string)
    (w : world) :
  stdout (fst (Spec.outcome cwd files tp target out w)) = stdout w
  /\ forall q,
       posixpath.abspath cwd q <> posixpath.abspath cwd out ->
       stat cwd q (fst (Spec.outcome cwd files tp target out w))
       = stat cwd q w.
Proof.
  unfold Spec.outcome.
  destruct (Spec.select_writer _) as [k|]; [| done].
  destruct (Spec.opening k _) as [ms|]; [| done].
  destruct (Spec.collect _) as [es x]. simpl.
  destruct (finished_frame out k ms es x (Spec.opened cwd out k ms w))
    as [Hw1 Hw2].
  destruct (opened_frame out k ms w) as [Ho1 Ho2].
  split; [congruence |]. intros q Hq. by rewrite Hw2, Ho2.
Qed.

(** A string found by [in] sits at some index of the list. *)
Lemma mem_lookup (x : string) (l : list string) :
  Py.mem x l = true -> exists i, l !! i = Some x.
Proof.
  induction l as [|y l IH]; [done |]. rewrite mem_cons.
  intros [Hx|Hl]%orb_true_iff.
  - apply String.eqb_eq in Hx as ->. by exists 0%nat.
  - destruct (IH Hl) as [i Hi]. by exists (S i).
Qed.





End MainFacts.

(** * Names the writers store as they are *)

Section Verbatim.






End Verbatim.

(** * Runs of [main] that return, and spellings of one file *)

Section Runs.
Import Sys.
Variable cwd : string.

(** What a path names depends on the disk only. *)
Lemma stat_disk (p : string) (w1 w2 : world) :
  disk w1 = disk w2 -> stat cwd p w1 = stat cwd p w2.
Proof. intros H. unfold stat, lookup. by rewrite H. Qed.

(** The exception of a build that was stopped is the one of a verdict. *)
Lemma collect_exn (vs : list verdict) (es : list entry) (x : exn)
    (b : bool) :
  Spec.collect vs = (es, Some (x, b)) ->
  (if b then Touched x else Stopped x) ∈ vs.
Proof.
  revert es. induction vs as [|v vs IH]; simpl; intros es; [done |].
  destruct v as [e| |y|y].
  - destruct (Spec.collect vs) as [es' x'] eqn:Hc. intros [= <- ->].
    right. by eapply IH.
  - intros H. right. by eapply IH.
  - intros [= <- <- <-]. left.
  - intros [= <- <- <-]. left.
Qed.




End Runs.

(** * How a build can stop *)

Section Stops.
Import Sys.
Variable cwd : string.

(** The unreadable input reported is one of the inputs, and is missing. *)
Lemma readable_missing (w : world) (files ok : list string) (f : string) :
  Spec.readable cwd w files = (ok, Some f) ->
  f ∈ files /\ stat cwd f w = None.
Proof.
  revert ok. induction files as [|g gs IH]; simpl; intros ok; [done |].
  destruct (stat cwd g w) eqn:Hg.
  - destruct (Spec.readable cwd w gs) as [ok' bad'].
    intros [= <- ->]. destruct (IH ok' eq_refl) as [Hin Hst].
    split; [by right | done].
  - intros [= <- <-]. split; [left | done].
Qed.


(** The exceptions a writer stops an input with. *)
Lemma examine_stopped (k : container) (out f arc : string) (w : world)
    (x : exn) (b : bool) :
  Spec.examine k cwd out f arc w = (if b then Touched x else Stopped x) ->
  x = FileNotFoundError f
  \/ x = NotModelled "a path that names a directory"
  \/ k = Zip
     /\ (x = NotModelled "a zip archive copied into itself"
         \/ x = IndexError "string index out of range"
         \/ x = StructError "ushort format requires 0 <= number <= 65535"
         \/ x = ValueError "ZIP does not support timestamps before 1980"
            /\ exists fl, lookup cwd f w = Some fl /\ (year fl < 1980)%Z).
Proof.
  destruct k; simpl; unfold zipfile.examine, tarfile.examine.
  - destruct (names_file f); simpl;
      [| destruct b; intros [= <-]; auto].
    destruct (String.eqb _ _); [destruct b; intros [= <-]; auto 6 |].
    destruct (lookup cwd f w) as [fl|];
      [| destruct b; intros [= <-]; auto].
    destruct (String.eqb _ ""); [destruct b; intros [= <-]; auto 6 |].
    destruct (Z.ltb_spec (year fl) 1980) as [Hlo|Hlo].
    { destruct b; intros [= <-]. right. right. split; [done |].
      right. right. right. split; [done |]. by exists fl. }
    destruct (2107 <? year fl)%Z;
      [destruct b; intros [= <-]; auto 7 | by destruct b].
  - destruct (String.eqb _ _); [by destruct b |].
    destruct (names_file f); simpl; [| destruct b; intros [= <-]; auto].
    destruct (lookup cwd f w);
      [by destruct b | destruct b; intros [= <-]; auto].
  - destruct (String.eqb _ _); [by destruct b |].
    destruct (names_file f); simpl; [| destruct b; intros [= <-]; auto].
    destruct (lookup cwd f w);
      [by destruct b | destruct b; intros [= <-]; auto].
  - destruct (String.eqb _ _); [by destruct b |].
    destruct (names_file f); simpl; [| destruct b; intros [= <-]; auto].
    destruct (lookup cwd f w);
      [by destruct b | destruct b; intros [= <-]; auto].
Qed.

(** A build that raises was stopped before the archive was opened, by
    the extension or by the plain tar writer, with the world as it was;
    or by a writer at one of the inputs. *)
Lemma outcome_raises (files : list string) (tp target out : string)
    (w w' : world) (x : exn) :
  Spec.outcome cwd files tp target out w = (w', Raise x) ->
  (Spec.select_writer (EvilArc.extension out) = None
   /\ x = SystemExit ("Unsupported archive extension: "
                      +:+ EvilArc.extension out)
   /\ w' = w)
  \/ (Spec.select_writer (EvilArc.extension out) = Some Tar
      /\ x = ReadError out /\ w' = w)
  \/ exists k f arc (b : bool),
       Spec.select_writer (EvilArc.extension out) = Some k
       /\ f ∈ files
       /\ Spec.examine k cwd out f arc w
          = (if b then Touched x else Stopped x).
Proof.
  unfold Spec.outcome.
  destruct (Spec.select_writer _) as [k|] eqn:Hk;
    [| intros [= <- <-]; auto].
  destruct (Spec.opening k _) as [ms|] eqn:Hopen.
  - destruct (Spec.collect _) as [es [[e b]|]] eqn:Hc; [| done].
    intros [= <- <-]. right. right.
    apply collect_exn in Hc.
    apply list_elem_of_fmap in Hc as (f & Hf & Hin).
    exists k, f. eexists. exists b.
    split; [done |]. split; [done |]. by rewrite <- Hf.
  - intros [= <- <-]. right. left.
    destruct k; simpl in Hopen; try done.
Qed.

End Stops.

(** * Worked runs *)

Example splitext_tar_gz : posixpath.splitext "x.tar.gz" = ("x.tar", ".gz").
Proof. reflexivity. Qed.

Example splitext_dotfile : posixpath.splitext "dir/.gz" = ("dir/.gz", "").
Proof. reflexivity. Qed.

Example abspath_relative :
  posixpath.abspath "/home/u" "./a/../b.txt" = "/home/u/b.txt".
Proof. reflexivity. Qed.

Example abspath_two_slashes : posixpath.abspath "/home/u" "//x/../../y" = "//y".
Proof. reflexivity. Qed.

Example basename_nested : posixpath.basename "a/b/c.txt" = "c.txt".
Proof. reflexivity. Qed.

(** What the two writers make of a member name. *)
Example zip_member_names :
  map zipfile.member_name
    ["../../tmp/evil/a.txt"; "x/../../a.txt"; "/etc/passwd"; "a//b/./c"]
  = ["../../tmp/evil/a.txt"; "../a.txt"; "etc/passwd"; "a/b/c"].
Proof. reflexivity. Qed.

Example tar_member_names :
  map tarfile.member_name
    ["../../tmp/evil/a.txt"; "x/../../a.txt"; "/etc/passwd"; "a//b/./c"]
  = ["../../tmp/evil/a.txt"; "x/../../a.txt"; "etc/passwd"; "a//b/./c"].
Proof. reflexivity. Qed.

(** A path with a trailing slash names no file. *)
Example isfile_trailing_slash :
  Sys.isfile Demo.cwd "a.txt" Demo.two_files = (Demo.two_files, Sys.Ok true)
  /\ Sys.isfile Demo.cwd "a.txt/" Demo.two_files
     = (Demo.two_files, Sys.Ok false)
  /\ Sys.isfile Demo.cwd "a.txt/." Demo.two_files
     = (Demo.two_files, Sys.Ok false).
Proof. split; [| split]; vm_compute; reflexivity. Qed.

(** The scenario of the specification: two files, the first is the
    target, a zip output. *)
Example run_zip :
  let '(w', r) :=
    EvilArc.main Demo.cwd
      (EvilArc.Args "../../tmp/evil" "a.txt" "x.zip" ["a.txt"; "b.txt"])
      Demo.two_files in
  r = Sys.Ok tt
  /\ Sys.stat Demo.cwd "x.zip" w'
     = Some (Sys.Archive Sys.Zip
               [Sys.Entry "../../tmp/evil/a.txt" "a.txt";
                Sys.Entry "b.txt" "b.txt"])
  /\ Sys.stdout w' = ["Created x.zip with traversal path applied to a.txt"].
Proof. vm_compute. done. Qed.

(** The same inputs with a gzip-compressed tar output. *)
Example run_tar_gz :
  let '(w', r) :=
    EvilArc.main Demo.cwd
      (EvilArc.Args "../../tmp/evil" "a.txt" "x.tar.gz" ["a.txt"; "b.txt"])
      Demo.two_files in
  r = Sys.Ok tt
  /\ Sys.stat Demo.cwd "x.tar.gz" w'
     = Some (Sys.Archive Sys.TarGz
               [Sys.Entry "../../tmp/evil/a.txt" "a.txt";
                Sys.Entry "b.txt" "b.txt"]).
Proof. vm_compute. done. Qed.

(** A target that is not in the file list stops [main] before any write. *)
Example run_target_missing :
  EvilArc.main Demo.cwd
    (EvilArc.Args ".." "c.txt" "x.zip" ["a.txt"; "b.txt"]) Demo.two_files
  = (Demo.two_files,
     Sys.Raise (Sys.SystemExit
       "The file specified with --target must be in the input file list.")).
Proof. vm_compute. done. Qed.

(** The tar writer passes over the output archive when it is one of the
    inputs: two inputs, one member. *)
Example run_tar_skips_output :
  let '(w', r) :=
    EvilArc.build_archive Demo.cwd ["a.txt"; "./x.tar"] ".." "a.txt" "x.tar"
      Demo.two_files in
  r = Sys.Ok tt
  /\ Sys.stat Demo.cwd "x.tar" w'
     = Some (Sys.Archive Sys.Tar [Sys.Entry "../a.txt" "a.txt"]).
Proof. vm_compute. done. Qed.

(** The zip writer refuses a file last changed before 1980: the build
    stops there and leaves the archive with the members added so far. *)
Example run_zip_old_file :
  let '(w', r) :=
    EvilArc.main Demo.cwd
      (EvilArc.Args ".." "a.txt" "x.zip" ["a.txt"; "old.txt"; "b.txt"])
      Demo.with_old_file in
  r = Sys.Raise (Sys.ValueError "ZIP does not support timestamps before 1980")
  /\ Sys.stat Demo.cwd "x.zip" w'
     = Some (Sys.Archive Sys.Zip [Sys.Entry "../a.txt" "a.txt"])
  /\ Sys.stdout w' = [].
Proof. vm_compute. done. Qed.

(** A file dated after 2107 stops the zip writer when the archive is
    already marked as changed: no member is added, but the archive is
    written again. *)
Example run_zip_late_file :
  let '(w', r) :=
    EvilArc.build_archive Demo.cwd ["late.txt"] ".." "late.txt" "x.zip"
      Demo.with_late_file in
  r = Sys.Raise
        (Sys.StructError "ushort format requires 0 <= number <= 65535")
  /\ Sys.lookup Demo.cwd "x.zip" Demo.with_late_file
     = Some (Sys.File 2025
               (Sys.Archive Sys.Zip [Sys.Entry "old.txt" "old.txt"]))
  /\ Sys.lookup Demo.cwd "x.zip" w'
     = Some (Sys.File 2026
               (Sys.Archive Sys.Zip [Sys.Entry "old.txt" "old.txt"])).
Proof. vm_compute. done. Qed.

(** * The properties of the specification *)














(** Both spellings of the target in one input list: both entries carry
    the traversal path. *)
Example run_mixed_spellings :
  let '(w', r) :=
    EvilArc.main Demo.cwd
      (EvilArc.Args "../.." "a.txt" "x.tar"
         ["/w/a.txt"; "b.txt"; "a.txt"; "./a.txt"])
      Demo.two_files in
  r = Sys.Ok tt
  /\ Sys.stat Demo.cwd "x.tar" w'
     = Some (Sys.Archive Sys.Tar
               [Sys.Entry "../../a.txt" "/w/a.txt";
                Sys.Entry "b.txt" "b.txt";
                Sys.Entry "../../a.txt" "a.txt";
                Sys.Entry "../../a.txt" "./a.txt"]).
Proof. vm_compute. done. Qed.

(** C6.  Normalizing is idempotent, and a traversal path given with its
    trailing slash builds exactly what the path without it builds: the
    same normalized path, hence the same name for every entry and the same
    archive; a trailing slash that was given is not doubled. *)
Theorem C6_normalize_idempotent (tp : string) :
  tp <> "" ->
  Py.endswith_any tp ["/"; "\"] = false ->
  EvilArc.normalize (tp +:+ "/") = EvilArc.normalize tp
  /\ EvilArc.normalize (tp +:+ "/") = tp +:+ "/"
  /\ EvilArc.normalize (EvilArc.normalize tp) = EvilArc.normalize tp
  /\ (forall cwd target f,
        Spec.entry_of cwd (tp +:+ "/") target f = Spec.entry_of cwd tp target f)
  /\ (forall cwd files target out w,
        EvilArc.build_archive cwd files (tp +:+ "/") target out w
        = EvilArc.build_archive cwd files tp target out w).
Proof.
  intros Hne Hopen.
  assert (EvilArc.normalize (tp +:+ "/") = EvilArc.normalize tp) as Heq.
  { by rewrite normalize_slash, normalize_open. }
  split; [done |]. split; [apply normalize_slash |].
  split; [apply normalize_idem |]. split.
  - intros cwd target f. unfold Spec.entry_of. by rewrite Heq.
  - intros cwd files target out w. unfold EvilArc.build_archive.
    by rewrite Heq.
Qed.

Lemma C6_normalize_idempotent_witness :
  EvilArc.normalize ("a/b" +:+ "/") = EvilArc.normalize "a/b"
  /\ EvilArc.normalize ("a/b" +:+ "/") = "a/b" +:+ "/"
  /\ EvilArc.normalize (EvilArc.normalize "a/b") = EvilArc.normalize "a/b"
  /\ (forall cwd target f,
        Spec.entry_of cwd ("a/b" +:+ "/") target f
        = Spec.entry_of cwd "a/b" target f)
  /\ (forall cwd files target out w,
        EvilArc.build_archive cwd files ("a/b" +:+ "/") target out w
        = EvilArc.build_archive cwd files "a/b" target out w).
Proof.
  apply (C6_normalize_idempotent "a/b"); [discriminate | reflexivity].
Defined.

(** C7.  When the lower-cased extension of the output name is none of the
    six the program knows, [build_archive] exits with the message
    "Unsupported archive extension" and leaves the world as it was: no
    archive is opened, none is written, and no writer is taken by default.
    [main] then exits too, with the world as it was. *)
Theorem C7_unsupported_extension (cwd : string) (files : list string)
    (tp target out : string) (w : Sys.world) :
  Py.mem (EvilArc.extension out)
    [".zip"; ".jar"; ".tar"; ".gz"; ".tgz"; ".bz2"] = false ->
  EvilArc.build_archive cwd files tp target out w
  = (w, Sys.Raise (Sys.SystemExit ("Unsupported archive extension: "
                                   +:+ EvilArc.extension out)))
  /\ exists msg,
       EvilArc.main cwd (EvilArc.Args tp target out files) w
       = (w, Sys.Raise (Sys.SystemExit msg)).
Proof.
  intros Hext.
  assert (EvilArc.build_archive cwd files tp target out w
          = (w, Sys.Raise (Sys.SystemExit ("Unsupported archive extension: "
                                           +:+ EvilArc.extension out))))
    as Hbuild.
  { rewrite build_archive_outcome. unfold Spec.outcome, Spec.select_writer.
    rewrite !mem_cons, mem_nil in Hext.
    repeat (apply orb_false_iff in Hext as [? Hext]).
    by repeat match goal with Hx : String.eqb _ _ = false |- _ =>
      rewrite Hx; clear Hx end. }
  split; [done |].
  unfold EvilArc.main. simpl.
  unfold Sys.bind at 1.
  destruct (validation_pure cwd files w) as [Hv|[msg Hv]]; simpl in Hv;
    rewrite Hv; [| by exists msg].
  unfold Sys.bind at 1.
  destruct (negb (Py.mem target files)); [by eexists |].
  unfold Sys.ret at 1. unfold Sys.bind at 1. rewrite Hbuild. by eexists.
Qed.

Lemma C7_unsupported_extension_witness :
  EvilArc.build_archive Demo.cwd ["a.txt"; "b.txt"] "../../tmp/evil" "a.txt"
    "x.rar" Demo.two_files
  = (Demo.two_files,
     Sys.Raise (Sys.SystemExit ("Unsupported archive extension: "
                                +:+ EvilArc.extension "x.rar")))
  /\ exists msg,
       EvilArc.main Demo.cwd
         (EvilArc.Args "../../tmp/evil" "a.txt" "x.rar" ["a.txt"; "b.txt"])
         Demo.two_files
       = (Demo.two_files, Sys.Raise (Sys.SystemExit msg)).
Proof.
  apply (C7_unsupported_extension Demo.cwd ["a.txt"; "b.txt"]
           "../../tmp/evil" "a.txt" "x.rar" Demo.two_files).
  reflexivity.
Defined.

(** C8.  The writer depends on the extension of the output name alone,
    and letter case does not matter.  For an output name [r.x], where
    [x] holds no dot and no slash and the last component of [r] has a
    character other than a dot, the extension is [.x] in lower case; an
    output name that equals [r.x] up to letter case has the same
    extension, and a build under it uses the writer the table gives for
    that extension: zip for .zip and .jar, plain tar for .tar, gzip tar
    for .gz and .tgz, bzip2 tar for .bz2, none for any other. *)
Theorem C8_format_by_extension (r x out2 : string) :
  Spec.all_dots (posixpath.basename r) = false ->
  Py.contains "." x = false ->
  Py.contains "/" x = false ->
  Py.lower out2 = Py.lower (r +:+ "." +:+ x) ->
  EvilArc.extension (r +:+ "." +:+ x) = "." +:+ Py.lower x
  /\ EvilArc.extension out2 = "." +:+ Py.lower x
  /\ Spec.select_writer (EvilArc.extension out2)
     = Spec.select_writer (EvilArc.extension (r +:+ "." +:+ x))
  /\ (forall ext,
        Spec.select_writer ext
        = if Py.mem ext [".zip"; ".jar"] then Some Sys.Zip
          else if Py.mem ext [".tar"] then Some Sys.Tar
          else if Py.mem ext [".gz"; ".tgz"] then Some Sys.TarGz
          else if Py.mem ext [".bz2"] then Some Sys.TarBz2
          else None)
  /\ forall cwd files tp target w,
       match Spec.select_writer ("." +:+ Py.lower x) with
       | None =>
           EvilArc.build_archive cwd files tp target out2 w
           = (w, Sys.Raise (Sys.SystemExit
                ("Unsupported archive extension: " +:+ "." +:+ Py.lower x)))
       | Some k =>
           (exists ms,
              Sys.stat cwd out2
                (fst (EvilArc.build_archive cwd files tp target out2 w))
              = Some (Sys.Archive k ms))
           \/ (k = Sys.Tar
               /\ EvilArc.build_archive cwd files tp target out2 w
                  = (w, Sys.Raise (Sys.ReadError out2)))
       end.
Proof.
  intros Hname Hdot Hsep Hcase.
  assert (EvilArc.extension (r +:+ "." +:+ x) = "." +:+ Py.lower x) as Hext.
  { unfold EvilArc.extension.
    change ("." +:+ x) with (String "." x).
    by rewrite splitext_suffix, Hname. }
  pose proof (extension_case out2 _ Hcase) as Hsame.
  split; [done |]. split; [congruence |]. split; [by rewrite Hsame |].
  split.
  - intros ext. unfold Spec.select_writer.
    by rewrite !mem_cons, !mem_nil, !orb_false_r.
  - intros cwd files tp target w.
    pose proof (build_archive_kind cwd files tp target out2 w) as Hkind.
    by rewrite Hsame, Hext in Hkind.
Qed.

Lemma C8_format_by_extension_witness :
  EvilArc.extension "out.ZIP" = ".zip"
  /\ EvilArc.extension "OUT.zip" = ".zip"
  /\ Spec.select_writer (EvilArc.extension "OUT.zip")
     = Spec.select_writer (EvilArc.extension "out.ZIP")
  /\ (forall ext,
        Spec.select_writer ext
        = if Py.mem ext [".zip"; ".jar"] then Some Sys.Zip
          else if Py.mem ext [".tar"] then Some Sys.Tar
          else if Py.mem ext [".gz"; ".tgz"] then Some Sys.TarGz
          else if Py.mem ext [".bz2"] then Some Sys.TarBz2
          else None)
  /\ forall cwd files tp target w,
       (exists ms,
          Sys.stat cwd "OUT.zip"
            (fst (EvilArc.build_archive cwd files tp target "OUT.zip" w))
          = Some (Sys.Archive Sys.Zip ms))
       \/ (Sys.Zip = Sys.Tar
           /\ EvilArc.build_archive cwd files tp target "OUT.zip" w
              = (w, Sys.Raise (Sys.ReadError "OUT.zip"))).
Proof.
  apply (C8_format_by_extension "out" "ZIP" "OUT.zip"); reflexivity.
Defined.

(** C9.  The empty traversal path stays empty, no separator is appended;
    the target's name is then its bare base name, and every entry of the
    build, the target's included, has the form of a non-target entry. *)
Theorem C9_empty_traversal_path :
  EvilArc.normalize "" = ""
  /\ forall cwd target f,
       EvilArc.internal_name cwd (EvilArc.normalize "") target f
       = posixpath.basename f
       /\ Spec.entry_of cwd "" target f = Sys.Entry (posixpath.basename f) f
       /\ Spec.plain (Spec.entry_of cwd "" target f)
       /\ Py.contains "/" (Sys.arcname (Spec.entry_of cwd "" target f)) = false.
Proof.
  split; [reflexivity |]. intros cwd target f.
  assert (EvilArc.internal_name cwd (EvilArc.normalize "") target f
          = posixpath.basename f) as Hname.
  { rewrite normalize_empty. unfold EvilArc.internal_name.
    by destruct (String.eqb _ _). }
  split; [done |]. unfold Spec.plain, Spec.entry_of. simpl. rewrite Hname.
  split; [done |]. split; [done |]. apply basename_no_sep.
Qed.

(** C10, as stated, fails: the output name [.gz] ends in ".gz", yet its
    extension is empty and the build stops with the unsupported-extension
    exit instead of taking the gzip tar writer. *)
Lemma C10_dot_name_counterexample :
  Py.endswith ".gz" ".gz" = true
  /\ EvilArc.extension ".gz" = ""
  /\ EvilArc.build_archive Demo.cwd ["a.txt"] ".." "a.txt" ".gz"
       Demo.two_files
     = (Demo.two_files,
        Sys.Raise (Sys.SystemExit "Unsupported archive extension: ")).
Proof. split; [| split]; vm_compute; reflexivity. Qed.

(** C10, amended.  For an output name [r.gz] or [r.bz2] where the last
    component of [r] has a character other than a dot, the extension is
    the part from the last dot on, whatever precedes it, and the gzip
    (bzip2) tar writer is used; and a traversal path that ends in a
    backslash is left as it is. *)
Theorem C10_last_dot_suffix (r : string) :
  Spec.all_dots (posixpath.basename r) = false ->
  EvilArc.extension (r +:+ ".gz") = ".gz"
  /\ EvilArc.extension (r +:+ ".bz2") = ".bz2"
  /\ (forall cwd files tp target w,
        exists ms,
          Sys.stat cwd (r +:+ ".gz")
            (fst (EvilArc.build_archive cwd files tp target (r +:+ ".gz") w))
          = Some (Sys.Archive Sys.TarGz ms))
  /\ (forall cwd files tp target w,
        exists ms,
          Sys.stat cwd (r +:+ ".bz2")
            (fst (EvilArc.build_archive cwd files tp target (r +:+ ".bz2") w))
          = Some (Sys.Archive Sys.TarBz2 ms))
  /\ forall tp, EvilArc.normalize (tp +:+ "\") = tp +:+ "\".
Proof.
  intros Hname.
  assert (EvilArc.extension (r +:+ ".gz") = ".gz") as Hgz.
  { unfold EvilArc.extension.
    change ".gz" with (String "." "gz") at 1.
    by rewrite splitext_suffix, Hname. }
  assert (EvilArc.extension (r +:+ ".bz2") = ".bz2") as Hbz.
  { unfold EvilArc.extension.
    change ".bz2" with (String "." "bz2") at 1.
    by rewrite splitext_suffix, Hname. }
  split; [done |]. split; [done |]. split; [| split].
  - intros cwd files tp target w.
    pose proof (build_archive_kind cwd files tp target (r +:+ ".gz") w) as H.
    rewrite Hgz in H. simpl in H. destruct H as [H|[H _]]; done.
  - intros cwd files tp target w.
    pose proof (build_archive_kind cwd files tp target (r +:+ ".bz2") w) as H.
    rewrite Hbz in H. simpl in H. destruct H as [H|[H _]]; done.
  - apply normalize_backslash.
Qed.

Lemma C10_last_dot_suffix_witness :
  EvilArc.extension ("x" +:+ ".gz") = ".gz"
  /\ EvilArc.extension ("x" +:+ ".bz2") = ".bz2"
  /\ (forall cwd files tp target w,
        exists ms,
          Sys.stat cwd ("x" +:+ ".gz")
            (fst (EvilArc.build_archive cwd files tp target ("x" +:+ ".gz") w))
          = Some (Sys.Archive Sys.TarGz ms))
  /\ (forall cwd files tp target w,
        exists ms,
          Sys.stat cwd ("x" +:+ ".bz2")
            (fst (EvilArc.build_archive cwd files tp target
                    ("x" +:+ ".bz2") w))
          = Some (Sys.Archive Sys.TarBz2 ms))
  /\ forall tp, EvilArc.normalize (tp +:+ "\") = tp +:+ "\".
Proof.
  apply (C10_last_dot_suffix "x"). reflexivity.
Defined.

(** * Further properties of [main] *)

(** X1.  [main] stops at the first input, in list order, that is not an
    existing file: it exits with "File not found: " and that path, and
    leaves the disk and the standard output as they were. *)
Theorem X1_main_missing_file (cwd : string) (a : EvilArc.args)
    (w : Sys.world) (before after : list string) (f : string) :
  EvilArc.files a = before ++ f :: after ->
  (forall g, g ∈ before -> is_Some (Sys.stat cwd g w)) ->
  Sys.stat cwd f w = None ->
  EvilArc.main cwd a w
  = (w, Sys.Raise (Sys.SystemExit ("File not found: " +:+ f))).
Proof.
  intros Hfiles Hbefore Hf. rewrite main_outcome, Hfiles.
  by rewrite readable_first_missing.
Qed.

Lemma X1_main_missing_file_witness :
  EvilArc.main Demo.cwd
    (EvilArc.Args ".." "a.txt" "x.zip" ["a.txt"; "c.txt"; "d.txt"])
    Demo.two_files
  = (Demo.two_files,
     Sys.Raise (Sys.SystemExit ("File not found: " +:+ "c.txt"))).
Proof.
  apply (X1_main_missing_file Demo.cwd
           (EvilArc.Args ".." "a.txt" "x.zip" ["a.txt"; "c.txt"; "d.txt"])
           Demo.two_files ["a.txt"] ["d.txt"] "c.txt").
  - reflexivity.
  - intros g Hg. apply list_elem_of_singleton in Hg as ->.
    vm_compute. eauto.
  - reflexivity.
Defined.

(** X2.  When every input exists, [main] tests the target against the
    input list as a string: a target that is not literally one of the
    inputs makes [main] exit with the --target message and touch nothing,
    also when an input is the same file under another spelling. *)
Theorem X2_main_target_not_listed (cwd : string) (a : EvilArc.args)
    (w : Sys.world) :
  (forall g, g ∈ EvilArc.files a -> is_Some (Sys.stat cwd g w)) ->
  Py.mem (EvilArc.target a) (EvilArc.files a) = false ->
  EvilArc.main cwd a w
  = (w, Sys.Raise (Sys.SystemExit
       "The file specified with --target must be in the input file list.")).
Proof.
  intros Hfiles Hmem. rewrite main_outcome.
  by rewrite readable_total, Hmem.
Qed.

Lemma X2_main_target_not_listed_witness :
  EvilArc.main Demo.cwd
    (EvilArc.Args ".." "a.txt" "x.zip" ["/w/a.txt"]) Demo.two_files
  = (Demo.two_files,
     Sys.Raise (Sys.SystemExit
       "The file specified with --target must be in the input file list.")).
Proof.
  apply (X2_main_target_not_listed Demo.cwd
           (EvilArc.Args ".." "a.txt" "x.zip" ["/w/a.txt"]) Demo.two_files).
  - intros g Hg. apply list_elem_of_singleton in Hg as ->.
    vm_compute. eauto.
  - reflexivity.
Defined.



(** X4.  What a run of [main] leaves behind.  No file but the output is
    ever touched.  When [main] returns, every input was a file, the
    target was literally one of the inputs, the output is an archive of
    the kind the table gives, and exactly one line was printed.  When it
    exits, the world is as it was and the message is one of three: a
    missing input, the target not being listed, or the extension not
    being supported.  When a writer raises, nothing was printed. *)
Theorem X4_main_exit_or_print (cwd : string) (a : EvilArc.args)
    (w : Sys.world) :
  let '(w', r) := EvilArc.main cwd a w in
  (forall q,
     posixpath.abspath cwd q <> posixpath.abspath cwd (EvilArc.output a) ->
     Sys.stat cwd q w' = Sys.stat cwd q w)
  /\ match r with
     | Sys.Ok _ =>
         Sys.stdout w'
         = Sys.stdout w
           ++ ["Created " +:+ EvilArc.output a
               +:+ " with traversal path applied to " +:+ EvilArc.target a]
         /\ Py.mem (EvilArc.target a) (EvilArc.files a) = true
         /\ (forall g, g ∈ EvilArc.files a -> is_Some (Sys.stat cwd g w))
         /\ exists k ms,
              Spec.select_writer (EvilArc.extension (EvilArc.output a))
              = Some k
              /\ Sys.stat cwd (EvilArc.output a) w'
                 = Some (Sys.Archive k ms)
     | Sys.Raise (Sys.SystemExit msg) =>
         w' = w
         /\ ((exists f,
                f ∈ EvilArc.files a /\ Sys.stat cwd f w = None
                /\ msg = "File not found: " +:+ f)
             \/ (Py.mem (EvilArc.target a) (EvilArc.files a) = false
                 /\ msg = "The file specified with --target must be in the input file list.")
             \/ (Spec.select_writer
                   (EvilArc.extension (EvilArc.output a)) = None
                 /\ msg = "Unsupported archive extension: "
                          +:+ EvilArc.extension (EvilArc.output a)))
     | Sys.Raise (Sys.NotModelled _) => True
     | Sys.Raise _ => Sys.stdout w' = Sys.stdout w
     end.
Proof.
  rewrite main_outcome.
  destruct (Spec.readable cwd w (EvilArc.files a)) as [ok [f|]] eqn:Hr.
  { split; [done |]. split; [done |].
    left. exists f. apply readable_missing in Hr as [Hin Hst]. done. }
  destruct (Py.mem _ _) eqn:Hmem.
  2:{ split; [done |]. auto. }
  pose proof (outcome_frame cwd (EvilArc.files a) (EvilArc.path a)
                (EvilArc.target a) (EvilArc.output a) w) as [Hso Hst].
  pose proof (build_archive_entries cwd (EvilArc.files a) (EvilArc.path a)
                (EvilArc.target a) (EvilArc.output a) w) as Hent.
  rewrite build_archive_outcome in *.
  destruct (Spec.outcome _ _ _ _ _ w) as [w1 [[]|e]] eqn:Hout;
    simpl in Hso, Hst.
  - split; [intros q Hq; rewrite (stat_disk cwd _ _ w1) by done;
            by apply Hst |].
    split; [simpl; by rewrite Hso |]. split; [done |].
    split; [by eapply readable_exists |].
    destruct (Hent w1 eq_refl) as (k & prior & Hk & _ & Hstat & _).
    exists k. eexists. split; [done |].
    rewrite (stat_disk cwd _ _ w1) by done. exact Hstat.
  - split; [done |].
    destruct e as [msg| | | | | | | |]; try exact Hso; [| done].
    apply outcome_raises in Hout
      as [(Hk & Hx & ->)|[(_ & Hx & _)|(k & f & arc & b & _ & _ & Hx)]].
    + injection Hx as ->. auto.
    + done.
    + apply examine_stopped in Hx.
      destruct Hx as [Hx|[Hx|[_ [Hx|[Hx|[Hx|[Hx _]]]]]]]; done.
Qed.



(** * Further properties of [build_archive] *)

(** X6.  A build touches one file only.  Whatever it does, returning or
    raising, every path that is not the output names the same file as
    before, and nothing is printed. *)
Theorem X6_build_touches_output_only (cwd : string) (files : list string)
    (tp target out : string) (w : Sys.world) (q : string) :
  posixpath.abspath cwd q <> posixpath.abspath cwd out ->
  Sys.stat cwd q (fst (EvilArc.build_archive cwd files tp target out w))
  = Sys.stat cwd q w
  /\ Sys.stdout (fst (EvilArc.build_archive cwd files tp target out w))
     = Sys.stdout w.
Proof.
  intros Hq. rewrite build_archive_outcome.
  destruct (outcome_frame cwd files tp target out w) as [Hout Hstat].
  split; [by apply Hstat | done].
Qed.

Lemma X6_build_touches_output_only_witness :
  Sys.stat Demo.cwd "./a.txt"
    (fst (EvilArc.build_archive Demo.cwd ["a.txt"; "nope.txt"] ".." "a.txt"
            "x.zip" Demo.with_archive))
  = Sys.stat Demo.cwd "./a.txt" Demo.with_archive
  /\ Sys.stdout
       (fst (EvilArc.build_archive Demo.cwd ["a.txt"; "nope.txt"] ".."
               "a.txt" "x.zip" Demo.with_archive))
     = Sys.stdout Demo.with_archive.
Proof.
  apply (X6_build_touches_output_only Demo.cwd ["a.txt"; "nope.txt"] ".."
           "a.txt" "x.zip" Demo.with_archive "./a.txt").
  vm_compute. discriminate.
Defined.



(** X8.  The modes the program passes are the ones the writers know.
    The mode dictionary has an entry for every extension the tar branch
    admits, so a build never raises [KeyError]; the zip writer is never
    given a mode it refuses, so a [ValueError] can only be the one for a
    file last changed before 1980; and an exit from a build is the one
    for an extension outside the table, with the world as it was. *)
Theorem X8_modes_accepted (cwd : string) (files : list string)
    (tp target out : string) (w : Sys.world) :
  let '(w', r) := EvilArc.build_archive cwd files tp target out w in
  match r with
  | Sys.Raise (Sys.KeyError _) => False
  | Sys.Raise (Sys.ValueError what) =>
      what = "ZIP does not support timestamps before 1980"
      /\ Spec.select_writer (EvilArc.extension out) = Some Sys.Zip
      /\ exists f fl,
           f ∈ files /\ Sys.lookup cwd f w = Some fl
           /\ (Sys.year fl < 1980)%Z
  | Sys.Raise (Sys.SystemExit msg) =>
      msg = "Unsupported archive extension: " +:+ EvilArc.extension out
      /\ Spec.select_writer (EvilArc.extension out) = None
      /\ w' = w
  | Sys.Raise (Sys.ReadError p) =>
      p = out
      /\ Spec.select_writer (EvilArc.extension out) = Some Sys.Tar
      /\ w' = w
  | _ => True
  end.
Proof.
  rewrite build_archive_outcome.
  destruct (Spec.outcome _ _ _ _ _ w) as [w' [[]|e]] eqn:Hout; [done |].
  apply outcome_raises in Hout
    as [(Hk & -> & ->)|[(Hk & -> & ->)|(k & f & arc & b & Hk & Hin & Hx)]];
    [done | done |].
  apply examine_stopped in Hx.
  destruct Hx as [->|[->|[-> [->|[->|[->|[-> (fl & Hl & Hy)]]]]]]];
    try done.
  split; [done |]. split; [done |]. by exists f, fl.
Qed.



(** Building twice onto a zip output: four members. *)
Example run_zip_twice :
  let w1 := fst (EvilArc.build_archive Demo.cwd ["a.txt"; "b.txt"] ".."
                   "a.txt" "x.zip" Demo.two_files) in
  Sys.stat Demo.cwd "x.zip"
    (fst (EvilArc.build_archive Demo.cwd ["a.txt"; "b.txt"] ".." "a.txt"
            "x.zip" w1))
  = Some (Sys.Archive Sys.Zip
            [Sys.Entry "../a.txt" "a.txt"; Sys.Entry "b.txt" "b.txt";
             Sys.Entry "../a.txt" "a.txt"; Sys.Entry "b.txt" "b.txt"]).
Proof. vm_compute. reflexivity. Qed.

(** * Further properties of the names and of the extension *)

(** X10.  The normalized traversal path is empty exactly when the given
    one is; otherwise it ends in a slash or a backslash, and it is the
    given path itself or the given path and one slash: normalizing never
    removes or rewrites a character. *)
Theorem X10_normalize_shape (tp : string) :
  (tp = "" /\ EvilArc.normalize tp = "")
  \/ (tp <> ""
      /\ Py.endswith_any (EvilArc.normalize tp) ["/"; "\"] = true
      /\ ((Py.endswith_any tp ["/"; "\"] = true /\ EvilArc.normalize tp = tp)
          \/ (Py.endswith_any tp ["/"; "\"] = false
              /\ EvilArc.normalize tp = tp +:+ "/"))).
Proof. apply normalize_shape. Qed.

(** X11.  Unless the traversal path ends in a backslash, the last
    component of every entry name is the base name of the input file: the
    traversal path changes the directory part of the name only. *)
Theorem X11_final_component (cwd tp target f : string) :
  Py.endswith tp "\" = false ->
  posixpath.basename
    (EvilArc.internal_name cwd (EvilArc.normalize tp) target f)
  = posixpath.basename f.
Proof.
  intros Hback.
  assert (EvilArc.normalize tp = ""
          \/ exists d, EvilArc.normalize tp = d +:+ "/") as Hd.
  { destruct (normalize_shape tp) as [[_ ->]|(_ & _ & [[Hend ->]|[_ ->]])].
    - by left.
    - right. apply endswith_iff. unfold Py.endswith_any in Hend.
      simpl in Hend. by rewrite Hback, !orb_false_r in Hend.
    - right. by exists tp. }
  pose proof (basename_no_sep f) as Hsep.
  unfold EvilArc.internal_name. destruct (String.eqb _ _).
  - by apply basename_app.
  - apply (basename_app "" _ Hsep). by left.
Qed.

Lemma X11_final_component_witness :
  posixpath.basename
    (EvilArc.internal_name "/w" (EvilArc.normalize "../../tmp/evil")
       "./in/a.txt" "in/a.txt")
  = posixpath.basename "in/a.txt".
Proof.
  apply (X11_final_component "/w" "../../tmp/evil" "./in/a.txt" "in/a.txt").
  reflexivity.
Defined.

(** X12.  The extension the dispatch looks at is a suffix of the output
    name up to letter case; it is empty, or one dot followed by characters
    that are neither dots nor slashes, so a compound suffix such as
    ".tar.gz" is never seen as a whole; and it is in lower case. *)
Theorem X12_extension_shape (out : string) :
  (exists root ext,
     out = root +:+ ext /\ EvilArc.extension out = Py.lower ext)
  /\ (EvilArc.extension out = ""
      \/ exists x, EvilArc.extension out = String "." x
                   /\ Py.contains "." x = false
                   /\ Py.contains "/" x = false)
  /\ Py.lower (EvilArc.extension out) = EvilArc.extension out.
Proof.
  destruct (splitext_shape out) as [Hcut Hshape].
  unfold EvilArc.extension. split; [| split].
  - exists (fst (posixpath.splitext out)), (snd (posixpath.splitext out)).
    by split.
  - destruct Hshape as [->|(x & -> & Hdot & Hsep)]; [by left | right].
    exists (Py.lower x). split; [done |].
    rewrite (lower_contains "."%char x lower_char_dot).
    by rewrite (lower_contains "/"%char x lower_char_sep).
  - apply lower_idem.
Qed.

(** X13.  An output name whose last component has no dot is never
    accepted: the extension is empty and the build exits with the
    unsupported-extension message, world untouched. *)
Theorem X13_no_dot_unsupported (cwd : string) (files : list string)
    (tp target out : string) (w : Sys.world) :
  Py.contains "." (posixpath.basename out) = false ->
  EvilArc.extension out = ""
  /\ EvilArc.build_archive cwd files tp target out w
     = (w, Sys.Raise (Sys.SystemExit "Unsupported archive extension: ")).
Proof.
  intros Hdot.
  assert (EvilArc.extension out = "") as Hext.
  { unfold EvilArc.extension. by rewrite splitext_no_dot. }
  split; [done |].
  rewrite build_archive_outcome. unfold Spec.outcome. by rewrite Hext.
Qed.

Lemma X13_no_dot_unsupported_witness :
  EvilArc.extension "backup.zip/archive" = ""
  /\ EvilArc.build_archive Demo.cwd ["a.txt"] ".." "a.txt"
       "backup.zip/archive" Demo.two_files
     = (Demo.two_files,
        Sys.Raise (Sys.SystemExit "Unsupported archive extension: ")).
Proof.
  apply (X13_no_dot_unsupported Demo.cwd ["a.txt"] ".." "a.txt"
           "backup.zip/archive" Demo.two_files).
  reflexivity.
Defined.

(** * Further properties of the comparison of paths *)

(** X14.  A relative input path and the same path written with a leading
    "./" are one file for the target test: they have the same canonical
    absolute path, so each is given the traversal path when the other is
    the target. *)
Theorem X14_dot_slash_spelling (cwd tp p : string) :
  posixpath.isabs p = false ->
  posixpath.abspath cwd ("./" +:+ p) = posixpath.abspath cwd p
  /\ EvilArc.internal_name cwd tp p ("./" +:+ p)
     = tp +:+ posixpath.basename ("./" +:+ p)
  /\ EvilArc.internal_name cwd tp ("./" +:+ p) p
     = tp +:+ posixpath.basename p.
Proof.
  intros Hp. pose proof (abspath_dot_slash cwd p Hp) as Heq.
  split; [done |]. split; by apply internal_name_target.
Qed.

Lemma X14_dot_slash_spelling_witness :
  posixpath.abspath "/w" ("./" +:+ "in/a.txt") = posixpath.abspath "/w" "in/a.txt"
  /\ EvilArc.internal_name "/w" "../" "in/a.txt" ("./" +:+ "in/a.txt")
     = "../" +:+ posixpath.basename ("./" +:+ "in/a.txt")
  /\ EvilArc.internal_name "/w" "../" ("./" +:+ "in/a.txt") "in/a.txt"
     = "../" +:+ posixpath.basename "in/a.txt".
Proof.
  apply (X14_dot_slash_spelling "/w" "../" "in/a.txt"). reflexivity.
Defined.
